(** * NexTrade HTTP API: a shallow embedding of the server's routes

    The server is one Express application over three Mongoose models
    (User, Product, Order), a JWT middleware and a Razorpay adapter.
    The embedding follows that shape, in two layers:

    - a Mongoose schema becomes a record whose optional paths are [option]
      fields, and a body that Mongoose has cast to the schema is the record
      of the paths it sets; the handlers of the first layer ([post_signup],
      [put_product], ...) are the routes from that point on, with the
      server drawing [_id] and the timestamps of a new document;
    - the routes of the second layer ([signup_route], [put_route], ...)
      take the path id as the string and the body as the JSON value that
      Express hands over, cast them (the casts are the class [Mongoose])
      and have the rejections of the first step: a cast that fails makes
      the query or [save] reject, which an [async] handler without
      [try]/[catch] leaves unanswered;
    - a collection is a list of documents in insertion order, and the three
      collections form the persistent state [Db];
    - a route is a function from the request, the clock reading
      ([Date.now()]), the ObjectId drawn by [new Model(...)] and the state
      to a new state and an [Outcome]; a handler whose promise rejects
      writes nothing, which is the outcome [Unhandled];
    - the third-party functions (bcrypt, jsonwebtoken, the Razorpay client,
      the text of a driver error) are the fields of the class [Platform];
    - strings are ASCII text, numbers are the finite ones, as rationals. *)

From Stdlib Require Import List String Ascii Bool.
From Stdlib Require Import ZArith NArith QArith Qround Qabs Lia Lqa.
From Stdlib Require DecimalN DecimalPos.
From Stdlib Require Import Permutation Sorted.
From Stdlib Require DecimalString HexadecimalString.
Import ListNotations.

Local Close Scope Q_scope.
Local Open Scope N_scope.
Local Open Scope string_scope.
Local Open Scope list_scope.

(** ** Basic data *)

Definition ObjectId := N.
Definition Timestamp := N.

(** JSON values as [res.json] writes them.  [JId] and [JDate] are the two
    leaves that stand for the string renderings of an ObjectId and of a
    Date. *)
#[warnings="-register-all"]
Inductive json : Type :=
| JNull
| JBool (b : bool)
| JNum (q : Q)
| JStr (s : string)
| JId (i : ObjectId)
| JDate (t : Timestamp)
| JArr (items : list json)
| JObj (fields : list (string * json)).

(** [keyOccurs k j]: some object inside [j] has a member named [k]. *)
Fixpoint keyOccurs (k : string) (j : json) : bool :=
  match j with
  | JArr items => existsb (keyOccurs k) items
  | JObj fields =>
      existsb (fun kv => String.eqb (fst kv) k || keyOccurs k (snd kv)) fields
  | _ => false
  end.

(** Member lookup in an object, [undefined] as [None]. *)
Fixpoint getField (k : string) (fields : list (string * json)) : option json :=
  match fields with
  | [] => None
  | (k', v) :: rest => if String.eqb k' k then Some v else getField k rest
  end.

(** The [delete obj.k] statement on a plain object. *)
Definition deleteField (k : string) (fields : list (string * json))
  : list (string * json) :=
  filter (fun kv => negb (String.eqb (fst kv) k)) fields.

(** An optional path contributes a member only when it is set. *)
Definition optField {A : Type} (k : string) (inj : A -> json) (v : option A)
  : list (string * json) :=
  match v with
  | Some a => [(k, inj a)]
  | None => []
  end.

Definition optString_eqb (a b : option string) : bool :=
  match a, b with
  | Some x, Some y => String.eqb x y
  | None, None => true
  | _, _ => false
  end.

(** What a handler leaves behind: a response written with
    [res.status(..).json(..)], or a rejected promise with nothing written. *)
Inductive Outcome : Type :=
| Reply (status : N) (body : json)
| Unhandled.

Definition statusOf (o : Outcome) : option N :=
  match o with
  | Reply s _ => Some s
  | Unhandled => None
  end.


(** Errors [save] rejects with. *)
Inductive SaveError : Type :=
| ValidationError (path value : string)
| DuplicateKey (path : string) (value : option string).

(** ** Constants *)
Definition SALT_ROUNDS : N := 10.

(** ** The User model *)
Module User.

(** The paths of [userSchema] that a body sets, once it is cast;
    [parseUser] reads them off the body as sent. *)
Record Body : Type := mkBody {
  b_name : option string;
  b_email : option string;
  b_password : option string;
  b_role : option string;
  b_businessName : option string;
  b_gstNumber : option string;
  b_shopName : option string;
  b_shopAddress : option string
}.

Record t : Type := mk {
  _id : ObjectId;
  name : option string;
  email : option string;
  password : option string;
  role : option string;
  businessName : option string;
  gstNumber : option string;
  shopName : option string;
  shopAddress : option string;
  createdAt : Timestamp;
  updatedAt : Timestamp
}.

(** [new User(req.body)] *)
Definition new (b : Body) (oid : ObjectId) (now : Timestamp) : t :=
  mk oid (b_name b) (b_email b) (b_password b) (b_role b)
     (b_businessName b) (b_gstNumber b) (b_shopName b) (b_shopAddress b)
     now now.

Definition roleEnum : list string := ["admin"; "wholesaler"; "retailer"].

(** The [enum] validator of the [role] path; an unset path is not
    validated. *)
Definition validate (u : t) : option SaveError :=
  match role u with
  | None => None
  | Some r =>
      if existsb (String.eqb r) roleEnum then None
      else Some (ValidationError "role" r)
  end.

(** [userSchema.pre('save', ...)] on a new document: the password path is
    modified exactly when it was given. *)
Definition preSave (hash : string -> N -> string) (u : t) : t :=
  match password u with
  | None => u
  | Some pw =>
      mk (_id u) (name u) (email u) (Some (hash pw SALT_ROUNDS)) (role u)
         (businessName u) (gstNumber u) (shopName u) (shopAddress u)
         (createdAt u) (updatedAt u)
  end.

(** The unique index on [email]: two documents may not hold the same
    value, an unset path counting as one value. *)
Definition emailTaken (coll : list t) (e : option string) : bool :=
  existsb (fun u => optString_eqb (email u) e) coll.

(** [user.save()] for a new document. *)
Definition save (hash : string -> N -> string) (u : t) (coll : list t)
  : list t * (SaveError + t) :=
  match validate u with
  | Some err => (coll, inl err)
  | None =>
      let u' := preSave hash u in
      if emailTaken coll (email u')
      then (coll, inl (DuplicateKey "email" (email u')))
      else (coll ++ [u'], inr u')
  end.

(** [User.findOne({ email })] *)
Definition findOneByEmail (e : option string) (coll : list t) : option t :=
  find (fun u => optString_eqb (email u) e) coll.

(** [User.find({ role: 'wholesaler' }, { password: 0 })] *)
Definition dropPassword (u : t) : t :=
  mk (_id u) (name u) (email u) None (role u)
     (businessName u) (gstNumber u) (shopName u) (shopAddress u)
     (createdAt u) (updatedAt u).

Definition findWholesalers (coll : list t) : list t :=
  map dropPassword
      (filter (fun u => optString_eqb (role u) (Some "wholesaler")) coll).

(** [this.toObject()] *)
Definition toObject (u : t) : list (string * json) :=
  [("_id", JId (_id u))]
    ++ optField "name" JStr (name u)
    ++ optField "email" JStr (email u)
    ++ optField "password" JStr (password u)
    ++ optField "role" JStr (role u)
    ++ optField "businessName" JStr (businessName u)
    ++ optField "gstNumber" JStr (gstNumber u)
    ++ optField "shopName" JStr (shopName u)
    ++ optField "shopAddress" JStr (shopAddress u)
    ++ [("createdAt", JDate (createdAt u));
        ("updatedAt", JDate (updatedAt u));
        ("__v", JNum (inject_Z 0))].

(** [userSchema.methods.toJSON] *)
Definition toJSON (u : t) : json :=
  let user := toObject u in
  let user := deleteField "password" user in
  JObj user.

End User.

(** ** The Product model *)
Module Product.

(** The paths of [productSchema] that a body sets, once it is cast; the
    plain body of a [PUT] is read as the same record, an unset path meaning
    "leave it" ([parsePlainUpdate] reads them off the body as sent). *)
Record Body : Type := mkBody {
  b_name : option string;
  b_price : option Q;
  b_category : option string;
  b_image : option string;
  b_wholesalerId : option ObjectId
}.

Record t : Type := mk {
  _id : ObjectId;
  name : option string;
  price : option Q;
  category : option string;
  image : option string;
  wholesalerId : option ObjectId;
  createdAt : Timestamp;
  updatedAt : Timestamp
}.

(** The object literal [{ ...req.body, wholesalerId: id }]: the later
    member wins. *)
Definition spreadWithOwner (b : Body) (id : ObjectId) : Body :=
  mkBody (b_name b) (b_price b) (b_category b) (b_image b) (Some id).

(** [new Product(obj)] *)
Definition new (b : Body) (oid : ObjectId) (now : Timestamp) : t :=
  mk oid (b_name b) (b_price b) (b_category b) (b_image b)
     (b_wholesalerId b) now now.

(** [product.save()]: the schema has neither validators nor indexes. *)
Definition save (p : t) (coll : list t) : list t := coll ++ [p].

(** The filter [{ _id: id, wholesalerId: owner }]. *)
Definition ownedBy (id owner : ObjectId) (p : t) : bool :=
  N.eqb (_id p) id &&
  match wholesalerId p with
  | Some w => N.eqb w owner
  | None => false
  end.

(** [Product.findOne({ _id, wholesalerId })] *)
Definition findOne (id owner : ObjectId) (coll : list t) : option t :=
  find (ownedBy id owner) coll.

(** [product.deleteOne()]: removes the document with that [_id]. *)
Fixpoint deleteOne (id : ObjectId) (coll : list t) : list t :=
  match coll with
  | [] => []
  | p :: rest =>
      if N.eqb (_id p) id then rest else p :: deleteOne id rest
  end.

Definition orElse {A : Type} (new old : option A) : option A :=
  match new with
  | Some _ => new
  | None => old
  end.

(** One update document without operator members, once cast, applied to
    one stored document ([parseUpdate] covers the others): every path the
    body sets is overwritten, [updatedAt] is refreshed. *)
Definition applyUpdate (b : Body) (now : Timestamp) (p : t) : t :=
  mk (_id p)
     (orElse (b_name b) (name p))
     (orElse (b_price b) (price p))
     (orElse (b_category b) (category p))
     (orElse (b_image b) (image p))
     (orElse (b_wholesalerId b) (wholesalerId p))
     (createdAt p) now.

(** [Product.findOneAndUpdate(filter, body, { new: true })]: the first
    document that passes the filter is replaced by its update, which is
    also the value returned; no document is created when none passes. *)
Fixpoint findOneAndUpdate (id owner : ObjectId) (b : Body)
         (now : Timestamp) (coll : list t) : list t * option t :=
  match coll with
  | [] => ([], None)
  | p :: rest =>
      if ownedBy id owner p
      then let p' := applyUpdate b now p in (p' :: rest, Some p')
      else let (rest', r) := findOneAndUpdate id owner b now rest in
           (p :: rest', r)
  end.

Definition toJSON (p : t) : json :=
  JObj ([("_id", JId (_id p))]
          ++ optField "name" JStr (name p)
          ++ optField "price" JNum (price p)
          ++ optField "category" JStr (category p)
          ++ optField "image" JStr (image p)
          ++ optField "wholesalerId" JId (wholesalerId p)
          ++ [("createdAt", JDate (createdAt p));
              ("updatedAt", JDate (updatedAt p));
              ("__v", JNum (inject_Z 0))]).

End Product.

(** ** The Order model *)
Module Order.

(** The paths of [orderSchema] that a body sets, once it is cast;
    [parseOrder] reads them off the body as sent. *)
Record Body : Type := mkBody {
  b_productName : option string;
  b_price : option Q;
  b_quantity : option Q;
  b_address : option string;
  b_paymentMethod : option string;
  b_paymentStatus : option string;
  b_razorpayOrderId : option string;
  b_razorpayPaymentId : option string;
  b_customerName : option string;
  b_email : option string;
  b_phone : option string;
  b_status : option string
}.

Record t : Type := mk {
  _id : ObjectId;
  productName : option string;
  price : option Q;
  quantity : option Q;
  address : option string;
  paymentMethod : option string;
  paymentStatus : option string;
  razorpayOrderId : option string;
  razorpayPaymentId : option string;
  customerName : option string;
  email : option string;
  phone : option string;
  status : option string;
  createdAt : Timestamp;
  updatedAt : Timestamp
}.

(** A schema [default]: used when the path is not given. *)
Definition withDefault (v : option string) (d : string) : option string :=
  match v with
  | Some _ => v
  | None => Some d
  end.

(** [new Order(req.body)] *)
Definition new (b : Body) (oid : ObjectId) (now : Timestamp) : t :=
  mk oid (b_productName b) (b_price b) (b_quantity b) (b_address b)
     (b_paymentMethod b)
     (withDefault (b_paymentStatus b) "Pending")
     (b_razorpayOrderId b) (b_razorpayPaymentId b)
     (b_customerName b) (b_email b) (b_phone b)
     (withDefault (b_status b) "Processing")
     now now.

(** [order.save()]: the schema has neither validators nor indexes. *)
Definition save (o : t) (coll : list t) : list t := coll ++ [o].

Definition toJSON (o : t) : json :=
  JObj ([("_id", JId (_id o))]
          ++ optField "productName" JStr (productName o)
          ++ optField "price" JNum (price o)
          ++ optField "quantity" JNum (quantity o)
          ++ optField "address" JStr (address o)
          ++ optField "paymentMethod" JStr (paymentMethod o)
          ++ optField "paymentStatus" JStr (paymentStatus o)
          ++ optField "razorpayOrderId" JStr (razorpayOrderId o)
          ++ optField "razorpayPaymentId" JStr (razorpayPaymentId o)
          ++ optField "customerName" JStr (customerName o)
          ++ optField "email" JStr (email o)
          ++ optField "phone" JStr (phone o)
          ++ optField "status" JStr (status o)
          ++ [("createdAt", JDate (createdAt o));
              ("updatedAt", JDate (updatedAt o));
              ("__v", JNum (inject_Z 0))]).

End Order.

(** ** The persistent state *)
Record Db : Type := mkDb {
  users : list User.t;
  products : list Product.t;
  orders : list Order.t
}.

(** ** Strings as JavaScript uses them here *)

(** [s.split(sep)] for a one-character separator. *)
Fixpoint split (sep : ascii) (s : string) : list string :=
  match s with
  | EmptyString => [EmptyString]
  | String c rest =>
      if Ascii.eqb c sep then EmptyString :: split sep rest
      else match split sep rest with
           | [] => [String c EmptyString]
           | w :: ws => String c w :: ws
           end
  end.

(** Case folding of the [i] flag on the ASCII letters. *)
Definition isLower (c : ascii) : bool :=
  (97 <=? nat_of_ascii c)%nat && (nat_of_ascii c <=? 122)%nat.

Definition upcase (c : ascii) : ascii :=
  if isLower c then ascii_of_nat (nat_of_ascii c - 32) else c.

Definition ci_eqb (a b : ascii) : bool := Ascii.eqb (upcase a) (upcase b).

Fixpoint upcaseString (s : string) : string :=
  match s with
  | EmptyString => EmptyString
  | String c rest => String (upcase c) (upcaseString rest)
  end.

(** ** Regular expressions: the fragment that is modelled

    [new RegExp(source, 'i')] is modelled for the sources made of ordinary
    characters, of syntax characters escaped with a backslash, and of an
    optional leading [^].  Every other source (quantifiers, classes, groups,
    alternation, a dot, an ill-formed pattern that makes the constructor
    throw) is outside the fragment and [compile] answers [None] for it. *)
Module RegExp.

Record t : Type := mk {
  anchored : bool;
  literal : string
}.

(** SyntaxCharacter of the pattern grammar. *)
Definition isSyntaxChar (c : ascii) : bool :=
  existsb (Ascii.eqb c)
          (list_ascii_of_string "^$\.*+?()[]{}|").

(** Pattern characters after the optional anchor. *)
Fixpoint atoms (src : string) : option string :=
  match src with
  | EmptyString => Some EmptyString
  | String c rest =>
      if Ascii.eqb c "092"%char then
        match rest with
        | String d rest' =>
            if isSyntaxChar d
            then option_map (String d) (atoms rest')
            else None
        | EmptyString => None
        end
      else if isSyntaxChar c then None
      else option_map (String c) (atoms rest)
  end.

Definition compile (src : string) : option t :=
  match src with
  | String c rest =>
      if Ascii.eqb c "^"%char then option_map (mk true) (atoms rest)
      else option_map (mk false) (atoms src)
  | EmptyString => option_map (mk false) (atoms src)
  end.

(** The literal matches at the head of the subject, ignoring case. *)
Fixpoint matchHere (lit subject : string) : bool :=
  match lit, subject with
  | EmptyString, _ => true
  | String _ _, EmptyString => false
  | String a lit', String b subject' =>
      ci_eqb a b && matchHere lit' subject'
  end.

(** The literal matches at some offset of the subject. *)
Fixpoint matchAnywhere (lit subject : string) : bool :=
  matchHere lit subject ||
  match subject with
  | EmptyString => false
  | String _ subject' => matchAnywhere lit subject'
  end.

(** [regex.test(subject)], which is also how a query [{ path: regex }]
    selects a string value. *)
Definition test (r : t) (subject : string) : bool :=
  if anchored r then matchHere (literal r) subject
  else matchAnywhere (literal r) subject.

End RegExp.

(** ** Queries with [.sort({ createdAt: -1 })] *)
Section SortDesc.
Context {A : Type} (key : A -> N).

Fixpoint insertDesc (x : A) (l : list A) : list A :=
  match l with
  | [] => [x]
  | y :: rest =>
      if (key y <=? key x)%N then x :: l else y :: insertDesc x rest
  end.

(** Documents by decreasing key; documents of equal key keep their
    collection order. *)
Definition sortDesc (l : list A) : list A :=
  fold_right insertDesc [] l.

(** [a] may come before [b] in such a listing. *)
Definition notOlder (a b : A) : Prop := (key b <= key a)%N.
End SortDesc.

(** ** Third-party functions and process configuration *)

(** What [jwt.sign] binds and [jwt.verify] gives back. *)
Record TokenPayload : Type := mkToken {
  id : ObjectId;
  role : option string
}.

(** The argument of [razorpay.orders.create]; [None] as amount is [NaN]. *)
Record ChargeRequest : Type := mkCharge {
  amount : option Z;
  currency : string;
  receipt : string
}.

Class Platform : Type := {
  (** [process.env.JWT_SECRET || 'nextrade_secret'] *)
  JWT_SECRET : string;
  (** [process.env.RAZORPAY_KEY_ID] *)
  RAZORPAY_KEY_ID : option string;
  (** [bcrypt.hash(data, rounds)] *)
  bcrypt_hash : string -> N -> string;
  (** [bcrypt.compare(data, hash)]; [None] when the promise rejects, as it
      does for an argument that is not a string. *)
  bcrypt_compare : option string -> option string -> option bool;
  (** [jwt.sign(payload, secret, { expiresIn: '1d' })] at a given time. *)
  jwt_sign : TokenPayload -> string -> Timestamp -> string;
  (** [jwt.verify(token, secret)] at a given time; [None] when it throws. *)
  jwt_verify : option string -> string -> Timestamp -> option TokenPayload;
  (** [err.message] of a rejected [save]. *)
  err_message : SaveError -> string;
  (** [razorpay.orders.create(options)]; [None] when the promise rejects. *)
  razorpay_orders_create : ChargeRequest -> option json
}.

(** ** The routes *)
Section Routes.
Context `{P : Platform}.

Definition failure (status : N) (message : string) : Outcome :=
  Reply status (JObj [("success", JBool false); ("message", JStr message)]).

(** [authMiddleware]: [next] is the handler that runs with [req.user]. *)
Definition authMiddleware (authorization : option string) (now : Timestamp)
           (next : TokenPayload -> Db -> Db * Outcome) (db : Db)
  : Db * Outcome :=
  match authorization with
  | None => (db, failure 401 "Unauthorized")
  | Some authHeader =>
      if negb (String.prefix "Bearer " authHeader)
      then (db, failure 401 "Unauthorized")
      else
        let token := nth_error (split " "%char authHeader) 1 in
        match jwt_verify token JWT_SECRET now with
        | Some decoded => next decoded db
        | None => (db, failure 401 "Invalid token")
        end
  end.

(** [POST /api/signup] once the body is cast to the schema's paths;
    [signup_route] is the route on the body as sent. *)
Definition post_signup (body : User.Body) (oid : ObjectId)
           (now : Timestamp) (db : Db) : Db * Outcome :=
  let user := User.new body oid now in
  match User.save bcrypt_hash user (users db) with
  | (coll, inr saved) =>
      (mkDb coll (products db) (orders db),
       Reply 201 (JObj [("success", JBool true);
                        ("message", JStr "Account created");
                        ("user", User.toJSON saved)]))
  | (coll, inl err) =>
      (mkDb coll (products db) (orders db), failure 400 (err_message err))
  end.

Record LoginBody : Type := mkLogin {
  l_email : option string;
  l_password : option string
}.

(** [POST /api/login] *)
Definition post_login (body : LoginBody) (now : Timestamp) (db : Db)
  : Db * Outcome :=
  match User.findOneByEmail (l_email body) (users db) with
  | None => (db, failure 401 "Invalid credentials")
  | Some user =>
      match bcrypt_compare (l_password body) (User.password user) with
      | None => (db, Unhandled)
      | Some false => (db, failure 401 "Invalid credentials")
      | Some true =>
          let token :=
            jwt_sign (mkToken (User._id user) (User.role user))
                     JWT_SECRET now in
          (db, Reply 200 (JObj [("success", JBool true);
                                ("token", JStr token);
                                ("user", User.toJSON user)]))
      end
  end.

(** [GET /api/wholesalers] *)
Definition get_wholesalers (db : Db) : Db * Outcome :=
  let wholesalers := User.findWholesalers (users db) in
  (db, Reply 200 (JObj [("success", JBool true);
                        ("wholesalers",
                         JArr (map User.toJSON wholesalers))])).

Definition productList (l : list Product.t) : Outcome :=
  Reply 200 (JObj [("success", JBool true);
                   ("products", JArr (map Product.toJSON l))]).

Definition isWholesaler (user : TokenPayload) : bool :=
  optString_eqb (role user) (Some "wholesaler").

(** The query [Product.find({ wholesalerId: wid }).sort({ createdAt: -1 })] *)
Definition productsOf (wid : ObjectId) (coll : list Product.t)
  : list Product.t :=
  sortDesc Product.createdAt
           (filter (fun p =>
                      match Product.wholesalerId p with
                      | Some w => N.eqb w wid
                      | None => false
                      end) coll).

(** [GET /api/products/wholesaler/:id] once the path id is cast to an
    ObjectId; [products_wholesaler_route] is the route on the id as sent,
    with its [catch] block. *)
Definition get_products_wholesaler (wid : ObjectId) (db : Db)
  : Db * Outcome :=
  let products := productsOf wid (products db) in
  (db, productList products).

(** [GET /api/products/my] *)
Definition get_products_my (authorization : option string)
           (now : Timestamp) (db : Db) : Db * Outcome :=
  authMiddleware authorization now
    (fun user db =>
       if negb (isWholesaler user)
       then (db, Reply 403 (JObj [("success", JBool false)]))
       else
         let products := productsOf (id user) (products db) in
         (db, productList products))
    db.

(** [POST /api/products] *)
Definition post_products (authorization : option string)
           (body : Product.Body) (oid : ObjectId) (now : Timestamp)
           (db : Db) : Db * Outcome :=
  authMiddleware authorization now
    (fun user db =>
       if negb (isWholesaler user)
       then (db, failure 403 "Only wholesalers can add products")
       else
         let product :=
           Product.new (Product.spreadWithOwner body (id user)) oid now in
         (mkDb (users db) (Product.save product (products db)) (orders db),
          Reply 201 (JObj [("success", JBool true);
                           ("product", Product.toJSON product)])))
    db.
(** The query [{ $or: [{ name: regex }, { category: regex }] }]: a path
    that is not set holds no string and is not selected. *)
Definition pathMatches (regex : RegExp.t) (v : option string) : bool :=
  match v with
  | Some s => RegExp.test regex s
  | None => false
  end.

Definition nameOrCategoryMatches (regex : RegExp.t) (p : Product.t) : bool :=
  pathMatches regex (Product.name p) || pathMatches regex (Product.category p).

(** [req.query.search || ''] *)
Definition searchOrEmpty (search : option string) : string :=
  match search with
  | Some s => s
  | None => EmptyString
  end.

(** [GET /api/products]; [None] when the search string is outside the
    modelled fragment of regular expressions. *)
Definition get_products (search : option string) (db : Db)
  : option (Db * Outcome) :=
  let search := searchOrEmpty search in
  match RegExp.compile search with
  | None => None
  | Some regex =>
      let products :=
        sortDesc Product.createdAt
                 (filter (nameOrCategoryMatches regex) (products db)) in
      Some (db, productList products)
  end.

(** [DELETE /api/products/:id] once the path id is cast to an ObjectId;
    [delete_route] is the route on the id as sent. *)
Definition delete_product (authorization : option string)
           (pid : ObjectId) (now : Timestamp) (db : Db) : Db * Outcome :=
  authMiddleware authorization now
    (fun user db =>
       match Product.findOne pid (id user) (products db) with
       | None => (db, failure 403 "Not allowed")
       | Some product =>
           (mkDb (users db)
                 (Product.deleteOne (Product._id product) (products db))
                 (orders db),
            Reply 200 (JObj [("success", JBool true)]))
       end)
    db.

(** [PUT /api/products/:id] once the path id is cast to an ObjectId and the
    body to the plain paths it sets; [put_route] is the route on the id and
    the body as sent. *)
Definition put_product (authorization : option string) (pid : ObjectId)
           (body : Product.Body) (now : Timestamp) (db : Db)
  : Db * Outcome :=
  authMiddleware authorization now
    (fun user db =>
       let (coll, found) :=
         Product.findOneAndUpdate pid (id user) body now (products db) in
       let db' := mkDb (users db) coll (orders db) in
       match found with
       | None => (db', Reply 403 (JObj [("success", JBool false)]))
       | Some product =>
           (db', Reply 200 (JObj [("success", JBool true);
                                  ("product", Product.toJSON product)]))
       end)
    db.

(** [POST /api/orders] once the body is cast to the schema's paths
    ([orders_route] is the route on the body as sent): the route is mounted
    without [authMiddleware], so the Authorization header, present or not,
    is never read. *)
Definition post_orders (authorization : option string) (body : Order.Body)
           (oid : ObjectId) (now : Timestamp) (db : Db) : Db * Outcome :=
  let order := Order.new body oid now in
  (mkDb (users db) (products db) (Order.save order (orders db)),
   Reply 201 (JObj [("success", JBool true); ("order", Order.toJSON order)])).

(** [GET /api/orders] *)
Definition get_orders (authorization : option string) (now : Timestamp)
           (db : Db) : Db * Outcome :=
  authMiddleware authorization now
    (fun _ db =>
       (db, Reply 200 (JObj [("success", JBool true);
                             ("orders",
                              JArr (map Order.toJSON
                                        (sortDesc Order.createdAt
                                                  (orders db))))])))
    db.

(** [Math.round] on a finite number: the integer nearest to it, the upper
    one of the two when it lies half way. *)
Definition Math_round (x : Q) : Z := Qfloor (x + (1 # 2))%Q.

Record ChargeBody : Type := mkChargeBody {
  c_amount : option Q
}.

(** The template literal [`receipt_${Date.now()}`]. *)
Definition receiptOf (now : Timestamp) : string :=
  "receipt_" ++ DecimalString.NilZero.string_of_uint (N.to_uint now).

(** The options object handed to [razorpay.orders.create]. *)
Definition chargeRequest (body : ChargeBody) (now : Timestamp)
  : ChargeRequest :=
  mkCharge (option_map Math_round (c_amount body)) "INR" (receiptOf now).

(** [POST /api/create-order] *)
Definition create_order (body : ChargeBody) (now : Timestamp) (db : Db)
  : Db * Outcome :=
  match razorpay_orders_create (chargeRequest body now) with
  | Some order => (db, Reply 200 order)
  | None => (db, Unhandled)
  end.

(** [GET /api/get-razorpay-key] *)
Definition get_razorpay_key (db : Db) : Db * Outcome :=
  (db, Reply 200 (JObj (optField "key" JStr RAZORPAY_KEY_ID))).

(** *** Vocabulary of the statements *)

(** The request carries a bearer token that [jwt.verify] accepts at time
    [now] and decodes to [user]. *)
Definition authenticated (authorization : option string) (now : Timestamp)
           (user : TokenPayload) : Prop :=
  exists authHeader,
    authorization = Some authHeader /\
    String.prefix "Bearer " authHeader = true /\
    jwt_verify (nth_error (split " "%char authHeader) 1) JWT_SECRET now
    = Some user.

(** A member named [k] occurs somewhere in what was written. *)
Definition outcomeMentions (k : string) (o : Outcome) : bool :=
  match o with
  | Reply _ body => keyOccurs k body
  | Unhandled => false
  end.

(** No product with this id belongs to the caller: the id is unknown, or
    every product that carries it has another owner or none. *)
Definition notOwned (pid caller : ObjectId) (coll : list Product.t) : Prop :=
  forall p, In p coll -> Product._id p = pid ->
            Product.wholesalerId p <> Some caller.

End Routes.

(** Substring, ignoring the case of ASCII letters: [s] is some text, then a
    chunk equal to [x] up to case, then some text. *)
Definition containsCI (x s : string) : Prop :=
  exists pre mid post,
    s = String.append pre (String.append mid post) /\
    upcaseString mid = upcaseString x.

Definition pathContainsCI (x : string) (v : option string) : Prop :=
  exists s, v = Some s /\ containsCI x s.

Definition newestFirst (l : list Product.t) : Prop :=
  StronglySorted (notOlder Product.createdAt) l.

Definition noSyntaxChar (x : string) : Prop :=
  Forall (fun c => RegExp.isSyntaxChar c = false) (list_ascii_of_string x).

(** ** A concrete platform and store, for running the routes *)
Module Demo.

Definition hash (data : string) (rounds : N) : string :=
  String.append "$2b$10$" data.

Definition compare (data h : option string) : option bool :=
  match data, h with
  | Some d, Some h' => Some (String.eqb (hash d SALT_ROUNDS) h')
  | _, _ => None
  end.

(** Three callers: wholesalers 1 and 2, retailer 3. *)
Definition sign (payload : TokenPayload) (secret : string) (now : Timestamp)
  : string :=
  if N.eqb (id payload) 1 then "tokenA"
  else if N.eqb (id payload) 2 then "tokenB"
  else "tokenC".

Definition verify (token : option string) (secret : string)
           (now : Timestamp) : option TokenPayload :=
  match token with
  | Some t =>
      if String.eqb t "tokenA" then Some (mkToken 1 (Some "wholesaler"))
      else if String.eqb t "tokenB" then Some (mkToken 2 (Some "wholesaler"))
      else if String.eqb t "tokenC" then Some (mkToken 3 (Some "retailer"))
      else None
  | None => None
  end.

Definition message (e : SaveError) : string :=
  match e with
  | ValidationError path _ => String.append "User validation failed: " path
  | DuplicateKey path _ => String.append "E11000 duplicate key error: " path
  end.

Definition gateway (r : ChargeRequest) : option json :=
  Some (JObj [("id", JStr "order_1");
              ("currency", JStr (currency r));
              ("receipt", JStr (receipt r))]).

#[export] Instance platform : Platform := {|
  JWT_SECRET := "nextrade_secret";
  RAZORPAY_KEY_ID := Some "rzp_test";
  bcrypt_hash := hash;
  bcrypt_compare := compare;
  jwt_sign := sign;
  jwt_verify := verify;
  err_message := message;
  razorpay_orders_create := gateway
|}.

Definition acme : User.t :=
  User.mk 1 (Some "Acme") (Some "acme@x.com")
          (Some (hash "s3cret" SALT_ROUNDS))
          (Some "wholesaler") None None None None 100 100.

Definition bolt : User.t :=
  User.mk 2 (Some "Bolt") (Some "bolt@x.com")
          (Some (hash "hunter2" SALT_ROUNDS))
          (Some "wholesaler") None None None None 110 110.

Definition rita : User.t :=
  User.mk 3 (Some "Rita") (Some "rita@x.com") (Some (hash "pa55" SALT_ROUNDS))
          (Some "retailer") None None None None 120 120.

Definition widget : Product.t :=
  Product.mk 10 (Some "Widget") (Some (10 # 1)%Q) (Some "Tools") None
             (Some 1) 200 200.

Definition gadget : Product.t :=
  Product.mk 11 (Some "Gadget") (Some (25 # 1)%Q) (Some "Gifts") None
             (Some 2) 210 210.

Definition db : Db := mkDb [acme; bolt; rita] [widget; gadget] [].

End Demo.


(** ** The signup page ([js/signup.js]) *)

(** ToBoolean of a parsed JSON value. *)
Definition truthy (j : json) : bool :=
  match j with
  | JNull => false
  | JBool b => b
  | JNum q => negb (Qeq_bool q (inject_Z 0))
  | JStr s => negb (String.eqb s EmptyString)
  | JId _ | JDate _ | JArr _ | JObj _ => true
  end.

(** [data.k] on a value that is not [null]; [undefined] as [None]. *)
Definition member (k : string) (data : json) : option json :=
  match data with
  | JObj fields => getField k fields
  | _ => None
  end.

Module SignupPage.

(** What the submit handler does to the page. *)
Inductive Effect : Type :=
| ShowStatus
| RedirectAfter (url : string) (ms : N)
| Alert (text : json)
| LogError.

(** [JSON.stringify({ name, email, password, role })]: the four inputs are
    always strings, the other paths are never sent. *)
Definition formBody (name email password role : string) : User.Body :=
  User.mkBody (Some name) (Some email) (Some password) (Some role)
              None None None None.

(** [data.message || 'Signup failed'] *)
Definition messageOrDefault (data : json) : json :=
  match member "message" data with
  | Some m => if truthy m then m else JStr "Signup failed"
  | None => JStr "Signup failed"
  end.

Definition failed : list Effect :=
  [LogError; Alert (JStr "An error occurred. Please try again.")].

(** The body of the [try]: [response] is the parsed body, [None] when
    [fetch] or [response.json()] rejects; reading a property of [null]
    throws, and the [catch] block takes over. *)
Definition onResponse (response : option json) : list Effect :=
  match response with
  | None => failed
  | Some JNull => failed
  | Some data =>
      match member "success" data with
      | Some success =>
          if truthy success
          then [ShowStatus; RedirectAfter "login.html" 2000]
          else [Alert (messageOrDefault data)]
      | None => [Alert (messageOrDefault data)]
      end
  end.

(** What the server wrote, as the page receives it. *)
Definition received (o : Outcome) : option json :=
  match o with
  | Reply _ body => Some body
  | Unhandled => None
  end.

End SignupPage.

(** ** Vocabulary of the further statements *)

(** The separator does not occur in the string. *)
Definition lacks (sep : ascii) (s : string) : Prop :=
  Forall (fun c => Ascii.eqb c sep = false) (list_ascii_of_string s).

(** A header the first test of [authMiddleware] turns away. *)
Definition noBearer (authorization : option string) : Prop :=
  match authorization with
  | None => True
  | Some authHeader => String.prefix "Bearer " authHeader = false
  end.

(** Prefix, ignoring the case of ASCII letters. *)
Definition startsWithCI (x s : string) : Prop :=
  exists mid post,
    s = String.append mid post /\ upcaseString mid = upcaseString x.

Definition pathStartsWithCI (x : string) (v : option string) : Prop :=
  exists s, v = Some s /\ startsWithCI x s.

(** The [role] path passes its validator. *)
Definition roleAllowed (r : option string) : Prop :=
  match r with
  | None => True
  | Some r => In r User.roleEnum
  end.

(** No stored user holds this value of the [email] path. *)
Definition emailFree (e : option string) (coll : list User.t) : Prop :=
  forall u, In u coll -> User.email u <> e.

Definition emailsDistinct (coll : list User.t) : Prop :=
  NoDup (map User.email coll).

Definition idsDistinct (coll : list Product.t) : Prop :=
  NoDup (map Product._id coll).

Definition ownedByCaller (caller : ObjectId) (p : Product.t) : Prop :=
  Product.wholesalerId p = Some caller.

Definition ordersNewestFirst (l : list Order.t) : Prop :=
  StronglySorted (notOlder Order.createdAt) l.


(** ** Requests for the concrete store *)

Definition demo_newcomer : User.Body :=
  User.mkBody (Some "Nina") (Some "new@x.com") (Some "pw") (Some "retailer")
              None None None None.

Definition demo_rename : Product.Body :=
  Product.mkBody (Some "Widget Pro") None None None None.

Definition demo_basket : Order.Body :=
  Order.mkBody (Some "Widget") (Some (10 # 1)%Q) (Some (2 # 1)%Q)
               None None None None None None None None None.


(** ** Requests as they arrive

    The handlers above take a request whose path id and body Mongoose has
    already cast to the schema's types.  The routes below take what Express
    hands over: the path id as a string, the body as a JSON value.  Casting
    is Mongoose's, and is a parameter ([Mongoose]); what is written here is
    what the routes do with its result.  A request the embedding does not
    cover (a body that is not an object, a declared path sent as [null], a
    member named [_id], [id], [createdAt], [updatedAt] or [__v]) is answered
    by [Outside] and the route by [None]. *)

(** What a cast makes of one value. *)
Inductive Cast (A : Type) : Type :=
| Casts (a : A)
| CastsToNull
| CastError.

Arguments Casts {A} a.
Arguments CastsToNull {A}.
Arguments CastError {A}.

(** One schema path of a body: not sent, sent with a value of the path's
    type, sent as null, or sent with a value the path's type refuses. *)
Inductive Path (A : Type) : Type :=
| Unset
| Holds (a : A)
| Null
| Invalid.

Arguments Unset {A}.
Arguments Holds {A} a.
Arguments Null {A}.
Arguments Invalid {A}.

(** A whole body: not covered, refused by casting, or cast. *)
Inductive Parsed (A : Type) : Type :=
| Outside
| Rejected
| Accepted (a : A).

Arguments Outside {A}.
Arguments Rejected {A}.
Arguments Accepted {A} a.

(** What an update document does to the document it is applied to; [None]
    when the server refuses the write. *)
Definition Update : Type := Product.t -> option Product.t.

Class Mongoose : Type := {
  (** the casts of the String, Number and ObjectId schema types *)
  castString : json -> Cast string;
  castNumber : json -> Cast Q;
  castObjectId : json -> Cast ObjectId;
  (** [req.params.id] cast to an ObjectId inside a filter; [None] when the
      cast throws *)
  castPathId : string -> option ObjectId;
  (** the cast of an update document that has operator members *)
  castOperators : list (string * json) -> Timestamp -> Parsed Update;
  (** [err.message] of the validation error for a body that fails casting *)
  castFailureMessage : json -> string;
  (** a string is cast to itself by the String type, a number by Number *)
  castString_string : forall s, castString (JStr s) = Casts s;
  castNumber_number : forall q, castNumber (JNum q) = Casts q
}.

Definition valueOf {A : Type} (p : Path A) : option A :=
  match p with
  | Holds a => Some a
  | _ => None
  end.

Definition isNull {A : Type} (p : Path A) : bool :=
  match p with
  | Null => true
  | _ => false
  end.

Definition isInvalid {A : Type} (p : Path A) : bool :=
  match p with
  | Invalid => true
  | _ => false
  end.

Definition readPath {A : Type} (cast : json -> Cast A) (k : string)
           (fields : list (string * json)) : Path A :=
  match getField k fields with
  | None => Unset
  | Some JNull => Null
  | Some v =>
      match cast v with
      | Casts a => Holds a
      | CastsToNull => Null
      | CastError => Invalid
      end
  end.

Definition hasMember (fields : list (string * json)) (k : string) : bool :=
  match getField k fields with
  | Some _ => true
  | None => false
  end.

(** Members a body may carry that the embedding leaves alone. *)
Definition reserved : list string :=
  ["_id"; "id"; "createdAt"; "updatedAt"; "__v"].

(** Operator members of an update document start with a dollar sign. *)
Definition isOperator (k : string) : bool := String.prefix "$" k.

Definition hasOperator (fields : list (string * json)) : bool :=
  existsb (fun kv => isOperator (fst kv)) fields.

Definition verdict {A : Type} (fields : list (string * json))
           (nulls invalids : list bool) (a : A) : Parsed A :=
  if existsb (hasMember fields) reserved || existsb (fun b => b) nulls
  then Outside
  else if existsb (fun b => b) invalids then Rejected
  else Accepted a.

Section Casting.
Context `{M : Mongoose}.

(** [new User(req.body)]: each declared path is cast by its type. *)
Definition parseUser (body : json) : Parsed User.Body :=
  match body with
  | JObj fields =>
      let name := readPath castString "name" fields in
      let email := readPath castString "email" fields in
      let password := readPath castString "password" fields in
      let role := readPath castString "role" fields in
      let businessName := readPath castString "businessName" fields in
      let gstNumber := readPath castString "gstNumber" fields in
      let shopName := readPath castString "shopName" fields in
      let shopAddress := readPath castString "shopAddress" fields in
      verdict fields
        [isNull name; isNull email; isNull password; isNull role;
         isNull businessName; isNull gstNumber; isNull shopName;
         isNull shopAddress]
        [isInvalid name; isInvalid email; isInvalid password;
         isInvalid role; isInvalid businessName; isInvalid gstNumber;
         isInvalid shopName; isInvalid shopAddress]
        (User.mkBody (valueOf name) (valueOf email) (valueOf password)
                     (valueOf role) (valueOf businessName)
                     (valueOf gstNumber) (valueOf shopName)
                     (valueOf shopAddress))
  | _ => Outside
  end.

(** [new Order(req.body)] *)
Definition parseOrder (body : json) : Parsed Order.Body :=
  match body with
  | JObj fields =>
      let productName := readPath castString "productName" fields in
      let price := readPath castNumber "price" fields in
      let quantity := readPath castNumber "quantity" fields in
      let address := readPath castString "address" fields in
      let paymentMethod := readPath castString "paymentMethod" fields in
      let paymentStatus := readPath castString "paymentStatus" fields in
      let razorpayOrderId := readPath castString "razorpayOrderId" fields in
      let razorpayPaymentId :=
        readPath castString "razorpayPaymentId" fields in
      let customerName := readPath castString "customerName" fields in
      let email := readPath castString "email" fields in
      let phone := readPath castString "phone" fields in
      let status := readPath castString "status" fields in
      verdict fields
        [isNull productName; isNull price; isNull quantity; isNull address;
         isNull paymentMethod; isNull paymentStatus; isNull razorpayOrderId;
         isNull razorpayPaymentId; isNull customerName; isNull email;
         isNull phone; isNull status]
        [isInvalid productName; isInvalid price; isInvalid quantity;
         isInvalid address; isInvalid paymentMethod; isInvalid paymentStatus;
         isInvalid razorpayOrderId; isInvalid razorpayPaymentId;
         isInvalid customerName; isInvalid email; isInvalid phone;
         isInvalid status]
        (Order.mkBody (valueOf productName) (valueOf price)
                      (valueOf quantity) (valueOf address)
                      (valueOf paymentMethod) (valueOf paymentStatus)
                      (valueOf razorpayOrderId) (valueOf razorpayPaymentId)
                      (valueOf customerName) (valueOf email) (valueOf phone)
                      (valueOf status))
  | _ => Outside
  end.

(** An update document without operator members: its declared paths, cast
    by their types, are what is set; other members are dropped. *)
Definition parsePlainUpdate (fields : list (string * json))
  : Parsed Product.Body :=
  let name := readPath castString "name" fields in
  let price := readPath castNumber "price" fields in
  let category := readPath castString "category" fields in
  let image := readPath castString "image" fields in
  let wholesalerId := readPath castObjectId "wholesalerId" fields in
  verdict fields
    [isNull name; isNull price; isNull category; isNull image;
     isNull wholesalerId]
    [isInvalid name; isInvalid price; isInvalid category; isInvalid image;
     isInvalid wholesalerId]
    (Product.mkBody (valueOf name) (valueOf price) (valueOf category)
                    (valueOf image) (valueOf wholesalerId)).

(** [req.body] as the update document of [findOneAndUpdate]. *)
Definition parseUpdate (body : json) (now : Timestamp) : Parsed Update :=
  match body with
  | JObj fields =>
      if hasOperator fields then castOperators fields now
      else
        match parsePlainUpdate fields with
        | Accepted b => Accepted (fun p => Some (Product.applyUpdate b now p))
        | Rejected => Rejected
        | Outside => Outside
        end
  | _ => Outside
  end.

(** [Product.findOneAndUpdate(filter, update, { new: true })] for any update
    document: the first document that passes the filter is replaced by what
    the update makes of it; [None] when the server refuses the write. *)
Fixpoint findOneAndApply (pid owner : ObjectId) (update : Update)
         (coll : list Product.t)
  : option (list Product.t * option Product.t) :=
  match coll with
  | [] => Some ([], None)
  | p :: rest =>
      if Product.ownedBy pid owner p
      then match update p with
           | Some p' => Some (p' :: rest, Some p')
           | None => None
           end
      else match findOneAndApply pid owner update rest with
           | Some (rest', r) => Some (p :: rest', r)
           | None => None
           end
  end.

End Casting.

Section Wire.
Context `{P : Platform} `{M : Mongoose}.

(** [POST /api/signup]: a body that fails casting makes [save] reject, and
    the [catch] block answers 400. *)
Definition signup_route (body : json) (oid : ObjectId) (now : Timestamp)
           (db : Db) : option (Db * Outcome) :=
  match parseUser body with
  | Outside => None
  | Rejected => Some (db, failure 400 (castFailureMessage body))
  | Accepted user => Some (post_signup user oid now db)
  end.

(** [POST /api/orders]: a body that fails casting makes [save] reject, and
    nothing catches it. *)
Definition orders_route (authorization : option string) (body : json)
           (oid : ObjectId) (now : Timestamp) (db : Db)
  : option (Db * Outcome) :=
  match parseOrder body with
  | Outside => None
  | Rejected => Some (db, Unhandled)
  | Accepted order => Some (post_orders authorization order oid now db)
  end.

(** [GET /api/products/wholesaler/:id]: a path id that is no ObjectId makes
    the query throw, and the [catch] block answers 500. *)
Definition products_wholesaler_route (idParam : string) (db : Db)
  : Db * Outcome :=
  match castPathId idParam with
  | Some wid => get_products_wholesaler wid db
  | None => (db, failure 500 "Failed to fetch products")
  end.

(** [DELETE /api/products/:id]: a path id that is no ObjectId makes
    [findOne] reject, and nothing catches it. *)
Definition delete_route (authorization : option string) (idParam : string)
           (now : Timestamp) (db : Db) : Db * Outcome :=
  authMiddleware authorization now
    (fun user db =>
       match castPathId idParam with
       | None => (db, Unhandled)
       | Some pid =>
           match Product.findOne pid (id user) (products db) with
           | None => (db, failure 403 "Not allowed")
           | Some product =>
               (mkDb (users db)
                     (Product.deleteOne (Product._id product) (products db))
                     (orders db),
                Reply 200 (JObj [("success", JBool true)]))
           end
       end)
    db.

(** [PUT /api/products/:id]: the filter and the update document are cast
    before the query runs; a failure of either, or a write the server
    refuses, rejects the promise, and nothing catches it. *)
Definition put_route (authorization : option string) (idParam : string)
           (body : json) (now : Timestamp) (db : Db)
  : option (Db * Outcome) :=
  match parseUpdate body now with
  | Outside => None
  | parsed =>
      Some
        (authMiddleware authorization now
           (fun user db =>
              match castPathId idParam, parsed with
              | Some pid, Accepted update =>
                  match findOneAndApply pid (id user) update (products db)
                  with
                  | None => (db, Unhandled)
                  | Some (coll, found) =>
                      let db' := mkDb (users db) coll (orders db) in
                      match found with
                      | None =>
                          (db', Reply 403 (JObj [("success", JBool false)]))
                      | Some product =>
                          (db', Reply 200
                                  (JObj [("success", JBool true);
                                         ("product",
                                          Product.toJSON product)]))
                      end
                  end
              | _, _ => (db, Unhandled)
              end)
           db)
  end.

(** The value a plain update leaves on a path: the one sent, cast, or the
    one the document had. *)
Definition updated {A : Type} (cast : json -> Cast A) (k : string)
           (fields : list (string * json)) (old : option A) : option A :=
  match readPath cast k fields with
  | Holds a => Some a
  | _ => old
  end.


End Wire.

(** ** Stand-ins for the casts, for running the routes

    Exact on what the examples send: strings, booleans, integers, numerals
    of decimal digits and ids of 24 hexadecimal digits. *)
Module DemoCasts.

Definition digits (s : string) : option N :=
  option_map N.of_uint (DecimalString.NilZero.uint_of_string s).

Definition toString (v : json) : Cast string :=
  match v with
  | JNull => CastsToNull
  | JStr s => Casts s
  | JBool true => Casts "true"
  | JBool false => Casts "false"
  | JNum q =>
      if Pos.eqb (Qden q) 1
      then Casts (DecimalString.NilZero.string_of_int (Z.to_int (Qnum q)))
      else CastError
  | _ => CastError
  end.

Definition toNumber (v : json) : Cast Q :=
  match v with
  | JNull => CastsToNull
  | JNum q => Casts q
  | JBool true => Casts (inject_Z 1)
  | JBool false => Casts (inject_Z 0)
  | JStr s =>
      if String.eqb s EmptyString then CastsToNull
      else match digits s with
           | Some n => Casts (inject_Z (Z.of_N n))
           | None => CastError
           end
  | _ => CastError
  end.

Definition lowerHex (c : ascii) : ascii :=
  if (65 <=? nat_of_ascii c)%nat && (nat_of_ascii c <=? 70)%nat
  then ascii_of_nat (nat_of_ascii c + 32)
  else c.

Fixpoint lowerHexString (s : string) : string :=
  match s with
  | EmptyString => EmptyString
  | String c rest => String (lowerHex c) (lowerHexString rest)
  end.

Definition pathId (s : string) : option ObjectId :=
  if Nat.eqb (String.length s) 24
  then option_map N.of_hex_uint
                  (HexadecimalString.NilZero.uint_of_string
                     (lowerHexString s))
  else None.

Definition toObjectId (v : json) : Cast ObjectId :=
  match v with
  | JNull => CastsToNull
  | JStr s =>
      match pathId s with
      | Some i => Casts i
      | None => CastError
      end
  | _ => CastError
  end.

#[export] Instance mongoose : Mongoose := {|
  castString := toString;
  castNumber := toNumber;
  castObjectId := toObjectId;
  castPathId := pathId;
  castOperators := fun _ _ => Outside;
  castFailureMessage := fun _ => "User validation failed";
  castString_string := fun _ => eq_refl;
  castNumber_number := fun _ => eq_refl
|}.

(** The ids of the two stored products, as they stand in a path. *)
Definition widgetId : string := "00000000000000000000000a".

Definition earlier : Order.t :=
  Order.mk 19 (Some "Gadget") (Some (25 # 1)%Q) (Some (1 # 1)%Q) None None
           (Some "Pending") None None None None None (Some "Processing")
           250 250.

Definition dbWithOrder : Db :=
  mkDb (users Demo.db) (products Demo.db) [earlier].



End DemoCasts.


(** * Properties of the routes *)

(** ** The middleware *)
Section Middleware.
Context `{P : Platform}.

Lemma authMiddleware_pass authorization now user next db :
  authenticated authorization now user ->
  authMiddleware authorization now next db = next user db.
Proof.
  intros (h & -> & Hpre & Hver).
  unfold authMiddleware. rewrite Hpre. cbn [negb]. now rewrite Hver.
Qed.

Lemma authMiddleware_unchanged authorization now next db :
  (forall user db0, fst (next user db0) = db0) ->
  fst (authMiddleware authorization now next db) = db.
Proof.
  intros Hnext. unfold authMiddleware.
  destruct authorization as [h|]; [|reflexivity].
  destruct (negb (String.prefix "Bearer " h)); [reflexivity|].
  destruct (jwt_verify _ _ _); [apply Hnext|reflexivity].
Qed.

Lemma mkDb_eta (db : Db) : mkDb (users db) (products db) (orders db) = db.
Proof. now destruct db. Qed.

End Middleware.

(** ** Product ownership *)
Section Ownership.
Context `{P : Platform}.

Lemma ownedBy_false pid caller p :
  (Product._id p = pid -> Product.wholesalerId p <> Some caller) ->
  Product.ownedBy pid caller p = false.
Proof.
  intros H. unfold Product.ownedBy.
  destruct (N.eqb_spec (Product._id p) pid) as [E|]; [|reflexivity].
  cbn [andb]. specialize (H E).
  destruct (Product.wholesalerId p) as [w|]; [|reflexivity].
  destruct (N.eqb_spec w caller); congruence.
Qed.

Lemma findOne_notOwned pid caller coll :
  notOwned pid caller coll -> Product.findOne pid caller coll = None.
Proof.
  unfold Product.findOne. induction coll as [|p rest IH]; intros H.
  - reflexivity.
  - cbn [find]. rewrite ownedBy_false.
    + apply IH. intros q Hq. apply H. now right.
    + apply H. now left.
Qed.

Lemma findOneAndUpdate_notOwned pid caller body now coll :
  notOwned pid caller coll ->
  Product.findOneAndUpdate pid caller body now coll = (coll, None).
Proof.
  induction coll as [|p rest IH]; intros H.
  - reflexivity.
  - cbn [Product.findOneAndUpdate]. rewrite ownedBy_false.
    + rewrite IH; [reflexivity|]. intros q Hq. apply H. now right.
    + apply H. now left.
Qed.

(** Once the path id and the body are cast: an authenticated [PUT] or
    [DELETE] on a product id that is unknown or that belongs to somebody
    else is answered 403 by both handlers, with a body that does not depend
    on which of the two is the case, and the store is left as it was. *)
Theorem cast_request_on_foreign_product_forbidden
        authorization now user pid body db :
  authenticated authorization now user ->
  notOwned pid (id user) (products db) ->
  delete_product authorization pid now db = (db, failure 403 "Not allowed")
  /\ put_product authorization pid body now db
     = (db, Reply 403 (JObj [("success", JBool false)])).
Proof.
  intros Hauth Hno. split.
  - unfold delete_product. rewrite (authMiddleware_pass _ _ _ _ _ Hauth).
    now rewrite (findOne_notOwned _ _ _ Hno).
  - unfold put_product. rewrite (authMiddleware_pass _ _ _ _ _ Hauth).
    rewrite (findOneAndUpdate_notOwned _ _ _ _ _ Hno).
    now rewrite mkDb_eta.
Qed.

(** C6: an authenticated caller whose role is not wholesaler gets 403 from
    [POST /api/products], and the store is left as it was. *)
Theorem C6_only_wholesalers_create_products
        authorization now user body oid db :
  authenticated authorization now user ->
  role user <> Some "wholesaler" ->
  post_products authorization body oid now db
  = (db, failure 403 "Only wholesalers can add products")
  /\ statusOf (snd (post_products authorization body oid now db)) = Some 403.
Proof.
  intros Hauth Hrole.
  assert (E : post_products authorization body oid now db
              = (db, failure 403 "Only wholesalers can add products")).
  { unfold post_products. rewrite (authMiddleware_pass _ _ _ _ _ Hauth).
    unfold isWholesaler.
    destruct (role user) as [r|]; cbn [optString_eqb negb]; [|reflexivity].
    destruct (String.eqb_spec r "wholesaler") as [->|]; [congruence|].
    reflexivity. }
  split; [exact E|]. now rewrite E.
Qed.

End Ownership.

(** ** Accounts *)
Section Accounts.
Context `{P : Platform}.

Lemma preSave_email u : User.email (User.preSave bcrypt_hash u) = User.email u.
Proof. unfold User.preSave. now destruct (User.password u). Qed.

Lemma optString_eqb_refl a : optString_eqb a a = true.
Proof. destruct a; [apply String.eqb_refl|reflexivity]. Qed.

Lemma emailTaken_true coll u :
  In u coll -> User.emailTaken coll (User.email u) = true.
Proof.
  intros Hin. unfold User.emailTaken. apply existsb_exists.
  exists u. split; [exact Hin|apply optString_eqb_refl].
Qed.

(** A [save] that is rejected leaves the collection as it was. *)
Lemma save_rejected_unchanged u coll coll' err :
  User.save bcrypt_hash u coll = (coll', inl err) -> coll' = coll.
Proof.
  unfold User.save. destruct (User.validate u).
  - now intros [= <- _].
  - destruct (User.emailTaken coll _); [now intros [= <- _]|discriminate].
Qed.

(** C7: signing up with an email that a stored user already has is answered
    400 with [{success: false, message}], the message being that of the
    error [save] rejected with, and the store is left as it was; when the
    payload passes the role validator that error is the duplicate key on
    [email]. *)
Theorem C7_duplicate_email_rejected body oid now db u e :
  In u (users db) ->
  User.email u = Some e ->
  User.b_email body = Some e ->
  exists err,
    post_signup body oid now db = (db, failure 400 (err_message err))
    /\ (User.validate (User.new body oid now) = None ->
        err = DuplicateKey "email" (Some e)).
Proof.
  intros Hin Hu Hb. unfold post_signup, User.save.
  destruct (User.validate (User.new body oid now)) as [verr|] eqn:Hv.
  - exists verr. rewrite mkDb_eta. split; [reflexivity|discriminate].
  - rewrite preSave_email. cbn [User.new User.email]. rewrite Hb, <- Hu.
    rewrite (emailTaken_true _ _ Hin). rewrite mkDb_eta.
    exists (DuplicateKey "email" (User.email u)). split; reflexivity.
Qed.


(** *** Serialization *)

Lemma keyOccurs_deleteField k fields :
  Forall (fun kv => keyOccurs k (snd kv) = false) fields ->
  keyOccurs k (JObj (deleteField k fields)) = false.
Proof.
  induction 1 as [|[k' v] rest Hv _ IH]; [reflexivity|].
  cbn [snd] in Hv. unfold deleteField in *. cbn [filter fst].
  destruct (String.eqb k' k) eqn:E; cbn [negb]; [exact IH|].
  cbn [keyOccurs existsb fst snd]. rewrite E, Hv. exact IH.
Qed.

Lemma optField_leaves {A} k key (inj : A -> json) v :
  (forall a, keyOccurs k (inj a) = false) ->
  Forall (fun kv => keyOccurs k (snd kv) = false) (optField key inj v).
Proof. intros H. destruct v; cbn [optField]; repeat constructor. apply H. Qed.

Lemma toObject_leaves k u :
  Forall (fun kv => keyOccurs k (snd kv) = false) (User.toObject u).
Proof.
  unfold User.toObject.
  repeat (apply Forall_app; split);
    try (apply optField_leaves; reflexivity);
    repeat constructor.
Qed.

Lemma toJSON_omits_password u : keyOccurs "password" (User.toJSON u) = false.
Proof. apply keyOccurs_deleteField, toObject_leaves. Qed.

Lemma toJSON_list_omits_password l :
  existsb (keyOccurs "password") (map User.toJSON l) = false.
Proof.
  induction l as [|u rest IH]; [reflexivity|].
  cbn [map existsb]. now rewrite toJSON_omits_password, IH.
Qed.

(** C3: whatever the store holds and whatever is sent, nothing that the
    signup route, the login route or the wholesaler listing writes has a
    member named [password] anywhere in it. *)
Theorem C3_password_never_serialized db :
  (forall body oid now,
      outcomeMentions "password" (snd (post_signup body oid now db)) = false)
  /\ (forall body now,
         outcomeMentions "password" (snd (post_login body now db)) = false)
  /\ outcomeMentions "password" (snd (get_wholesalers db)) = false.
Proof.
  split; [|split].
  - intros body oid now. unfold post_signup.
    destruct (User.save _ _ _) as [coll [err|saved]];
      cbn [snd outcomeMentions failure keyOccurs existsb fst].
    + reflexivity.
    + now rewrite toJSON_omits_password.
  - intros body now. unfold post_login.
    destruct (User.findOneByEmail _ _) as [user|]; [|reflexivity].
    destruct (bcrypt_compare _ _) as [[|]|]; try reflexivity.
    cbn [snd outcomeMentions keyOccurs existsb fst].
    now rewrite toJSON_omits_password.
  - unfold get_wholesalers.
    cbn [snd outcomeMentions keyOccurs existsb fst].
    now rewrite toJSON_list_omits_password.
Qed.

End Accounts.

(** ** Orders *)
Section Orders.
Context `{P : Platform}.

(** Once the body is cast: the handler of [POST /api/orders] answers 201
    whatever the Authorization header is, the absent one included; the
    order it stores is the payload with the schema defaults, so a payload
    without payment status is stored as "Pending" and one without status
    as "Processing". *)
Theorem cast_order_created_with_defaults
        authorization body oid now db :
  let result := post_orders authorization body oid now db in
  let order := Order.new body oid now in
  statusOf (snd result) = Some 201
  /\ result = post_orders None body oid now db
  /\ orders (fst result) = orders db ++ [order]
  /\ (Order.b_paymentStatus body = None ->
      Order.paymentStatus order = Some "Pending")
  /\ (Order.b_status body = None ->
      Order.status order = Some "Processing").
Proof.
  cbn zeta. unfold post_orders, Order.save.
  cbn [fst snd statusOf orders Order.new Order.paymentStatus Order.status].
  repeat split.
  - now intros ->.
  - now intros ->.
Qed.

(** Once the body is cast: a payment status or a status given in the
    payload of [POST /api/orders] is what the stored order holds, whoever
    calls. *)
Theorem cast_order_statuses_from_payload
        authorization body oid now db :
  let result := post_orders authorization body oid now db in
  let order := Order.new body oid now in
  statusOf (snd result) = Some 201
  /\ orders (fst result) = orders db ++ [order]
  /\ (forall v, Order.b_paymentStatus body = Some v ->
                Order.paymentStatus order = Some v)
  /\ (forall v, Order.b_status body = Some v ->
                Order.status order = Some v).
Proof.
  cbn zeta. unfold post_orders, Order.save.
  cbn [fst snd statusOf orders Order.new Order.paymentStatus Order.status].
  repeat split.
  - now intros v ->.
  - now intros v ->.
Qed.

End Orders.

(** ** Payments *)
Section Payments.
Context `{P : Platform}.

Local Open Scope Q_scope.

Lemma Math_round_within_half q :
  Qabs (inject_Z (Math_round q) - q) <= 1 # 2.
Proof.
  unfold Math_round.
  pose proof (Qfloor_le (q + (1 # 2))) as Hlo.
  pose proof (Qlt_floor (q + (1 # 2))) as Hhi.
  rewrite inject_Z_plus in Hhi. change (inject_Z 1) with 1 in Hhi.
  apply Qabs_Qle_condition. split; lra.
Qed.

Lemma other_integer_at_least_half q (k : Z) :
  k <> Math_round q -> 1 # 2 <= Qabs (inject_Z k - q).
Proof.
  intros Hne. unfold Math_round in *.
  pose proof (Qfloor_le (q + (1 # 2))) as Hlo.
  pose proof (Qlt_floor (q + (1 # 2))) as Hhi.
  rewrite inject_Z_plus in Hhi. change (inject_Z 1) with 1 in Hhi.
  set (z := Qfloor (q + (1 # 2))) in *.
  destruct (Z_lt_le_dec k z) as [Hlt|Hge].
  - assert (Hk : inject_Z k + 1 <= inject_Z z).
    { change 1 with (inject_Z 1). rewrite <- inject_Z_plus.
      rewrite <- Zle_Qle. lia. }
    rewrite <- Qabs_opp. eapply Qle_trans; [|apply Qle_Qabs]. lra.
  - assert (Hk : inject_Z z + 1 <= inject_Z k).
    { change 1 with (inject_Z 1). rewrite <- inject_Z_plus.
      rewrite <- Zle_Qle. lia. }
    eapply Qle_trans; [|apply Qle_Qabs]. lra.
Qed.

Lemma Math_round_nearest q (k : Z) :
  Qabs (inject_Z (Math_round q) - q) <= Qabs (inject_Z k - q).
Proof.
  destruct (Z.eq_dec k (Math_round q)) as [->|Hne].
  - apply Qle_refl.
  - eapply Qle_trans; [apply Math_round_within_half|].
    now apply other_integer_at_least_half.
Qed.

Lemma receiptOf_inj now now' : receiptOf now = receiptOf now' -> now = now'.
Proof.
  unfold receiptOf. cbn [String.append]. intros [= H].
  apply DecimalN.Unsigned.to_uint_inj.
  assert (Hn : forall n, N.to_uint n <> Decimal.Nil).
  { intros [|p]; [discriminate|apply DecimalPos.Unsigned.to_uint_nonnil]. }
  apply (f_equal DecimalString.NilZero.uint_of_string) in H.
  rewrite !DecimalString.NilZero.usu in H by apply Hn.
  now injection H.
Qed.

(** C9: for a request amount [q] the options handed to the gateway carry
    the integer nearest to [q] (no integer is nearer; 499.6 gives 500), the
    currency "INR" and a receipt made from the clock reading of the call,
    two readings never giving the same receipt; what the route answers is
    what the gateway returns for exactly these options. *)
Theorem C9_charge_amount_rounded q now db :
  chargeRequest (mkChargeBody (Some q)) now
  = mkCharge (Some (Math_round q)) "INR" (receiptOf now)
  /\ (forall k : Z,
         Qabs (inject_Z (Math_round q) - q) <= Qabs (inject_Z k - q))
  /\ Math_round (4996 # 10) = 500%Z
  /\ receiptOf now = String.append "receipt_"
                       (DecimalString.NilZero.string_of_uint (N.to_uint now))
  /\ (forall now', receiptOf now' = receiptOf now -> now' = now)
  /\ create_order (mkChargeBody (Some q)) now db
     = (db, match razorpay_orders_create
                    (mkCharge (Some (Math_round q)) "INR" (receiptOf now))
            with
            | Some order => Reply 200 order
            | None => Unhandled
            end).
Proof.
  split; [reflexivity|].
  split; [intros k; apply Math_round_nearest|].
  split; [reflexivity|].
  split; [reflexivity|].
  split; [intros now'; apply receiptOf_inj|].
  unfold create_order, chargeRequest. cbn [c_amount option_map].
  now destruct (razorpay_orders_create _).
Qed.

End Payments.

(** ** Sorted listings *)
Section SortDescFacts.
Context {A : Type} (key : A -> N).

Lemma insertDesc_perm x l : Permutation (insertDesc key x l) (x :: l).
Proof.
  induction l as [|y rest IH]; cbn [insertDesc]; [reflexivity|].
  destruct (key y <=? key x)%N; [reflexivity|].
  rewrite IH. apply perm_swap.
Qed.

Lemma sortDesc_perm l : Permutation (sortDesc key l) l.
Proof.
  induction l as [|x rest IH]; cbn [sortDesc fold_right]; [reflexivity|].
  fold (sortDesc key rest). rewrite insertDesc_perm. now constructor.
Qed.

Lemma insertDesc_sorted x l :
  StronglySorted (notOlder key) l ->
  StronglySorted (notOlder key) (insertDesc key x l).
Proof.
  induction 1 as [|y rest Hrest IH Hall]; cbn [insertDesc].
  - repeat constructor.
  - destruct (N.leb_spec (key y) (key x)) as [Hle|Hgt].
    + constructor; [now constructor|]. constructor; [exact Hle|].
      eapply Forall_impl; [|exact Hall].
      unfold notOlder. intros z Hz. lia.
    + constructor; [exact IH|].
      eapply Permutation_Forall; [symmetry; apply insertDesc_perm|].
      constructor; [|exact Hall]. unfold notOlder. lia.
Qed.

Lemma sortDesc_sorted l : StronglySorted (notOlder key) (sortDesc key l).
Proof.
  induction l as [|x rest IH]; cbn [sortDesc fold_right]; [constructor|].
  now apply insertDesc_sorted.
Qed.

End SortDescFacts.

(** ** Matching, ignoring case *)
Section Matching.

Lemma matchHere_spec lit s :
  RegExp.matchHere lit s = true <->
  exists mid post,
    s = String.append mid post /\ upcaseString mid = upcaseString lit.
Proof.
  revert s. induction lit as [|a lit IH]; intros s.
  - split; [|reflexivity]. intros _. now exists EmptyString, s.
  - destruct s as [|b s]; cbn [RegExp.matchHere].
    + split; [discriminate|]. intros (mid & post & Hs & Hup).
      destruct mid; cbn in Hup, Hs; discriminate.
    + rewrite andb_true_iff, IH. unfold ci_eqb. rewrite Ascii.eqb_eq. split.
      * intros (Hab & mid & post & -> & Hup).
        exists (String b mid), post. split; [reflexivity|].
        cbn [upcaseString]. now rewrite Hup, Hab.
      * intros (mid & post & Hs & Hup).
        destruct mid as [|c mid]; cbn in Hup; [discriminate|].
        cbn [String.append] in Hs.
        injection Hs as -> ->. injection Hup as Hc Hup.
        split; [now symmetry|]. now exists mid, post.
Qed.

Lemma matchAnywhere_here lit s :
  RegExp.matchHere lit s = true -> RegExp.matchAnywhere lit s = true.
Proof. intros H. destruct s; cbn [RegExp.matchAnywhere]; now rewrite H. Qed.

Lemma matchAnywhere_spec lit s :
  RegExp.matchAnywhere lit s = true <-> containsCI lit s.
Proof.
  split.
  - induction s as [|c s IH]; cbn [RegExp.matchAnywhere];
      rewrite orb_true_iff; intros [H|H].
    + apply matchHere_spec in H as (mid & post & Hs & Hup).
      now exists EmptyString, mid, post.
    + discriminate.
    + apply matchHere_spec in H as (mid & post & Hs & Hup).
      now exists EmptyString, mid, post.
    + destruct (IH H) as (pre & mid & post & -> & Hup).
      now exists (String c pre), mid, post.
  - intros (pre & mid & post & -> & Hup).
    induction pre as [|c pre IH].
    + apply matchAnywhere_here, matchHere_spec. now exists mid, post.
    + cbn [String.append RegExp.matchAnywhere]. rewrite IH.
      apply orb_true_r.
Qed.

Lemma syntaxChar_backslash c :
  RegExp.isSyntaxChar c = false -> Ascii.eqb c "092"%char = false.
Proof.
  intros H. destruct (Ascii.eqb_spec c "092"%char) as [->|]; [|reflexivity].
  discriminate H.
Qed.

Lemma syntaxChar_caret c :
  RegExp.isSyntaxChar c = false -> Ascii.eqb c "^"%char = false.
Proof.
  intros H. destruct (Ascii.eqb_spec c "^"%char) as [->|]; [|reflexivity].
  discriminate H.
Qed.

Lemma atoms_plain x : noSyntaxChar x -> RegExp.atoms x = Some x.
Proof.
  unfold noSyntaxChar. induction x as [|c x IH]; [reflexivity|].
  cbn [list_ascii_of_string]. intros H. inversion H as [|? ? Hc Hx]; subst.
  cbn [RegExp.atoms]. rewrite (syntaxChar_backslash _ Hc), Hc.
  now rewrite (IH Hx).
Qed.

Lemma compile_plain x :
  noSyntaxChar x -> RegExp.compile x = Some (RegExp.mk false x).
Proof.
  intros H. pose proof (atoms_plain x H) as Ha.
  destruct x as [|c x]; [reflexivity|].
  unfold RegExp.compile. inversion H as [|? ? Hc _]; subst.
  now rewrite (syntaxChar_caret _ Hc), Ha.
Qed.

Lemma pathMatches_plain x v :
  pathMatches (RegExp.mk false x) v = true <-> pathContainsCI x v.
Proof.
  unfold pathMatches, pathContainsCI, RegExp.test.
  cbn [RegExp.anchored RegExp.literal]. split.
  - destruct v as [s|]; [|discriminate]. intros H.
    exists s. split; [reflexivity|now apply matchAnywhere_spec].
  - intros (s & -> & H). now apply matchAnywhere_spec.
Qed.

End Matching.

(** ** The catalog *)
Section Catalog.
Context `{P : Platform}.

(** C5, as the code has it: for a search string without regular-expression
    syntax characters, [GET /api/products?search=X] lists exactly the stored
    products whose name or category contains X as a substring up to case,
    each as often as it is stored, newest first. *)
Theorem C5_plain_search_lists_substring_matches x db :
  noSyntaxChar x ->
  exists result,
    get_products (Some x) db = Some (db, productList result)
    /\ (forall p,
           In p result <->
           In p (products db) /\
           (pathContainsCI x (Product.name p) \/
            pathContainsCI x (Product.category p)))
    /\ Permutation result
         (filter (nameOrCategoryMatches (RegExp.mk false x)) (products db))
    /\ newestFirst result.
Proof.
  intros Hplain.
  set (regex := RegExp.mk false x).
  set (hits := filter (nameOrCategoryMatches regex) (products db)).
  exists (sortDesc Product.createdAt hits).
  split; [|split; [|split]].
  - unfold get_products. cbn [searchOrEmpty].
    now rewrite (compile_plain _ Hplain).
  - intros p.
    assert (Hperm : In p (sortDesc Product.createdAt hits) <-> In p hits).
    { split; apply Permutation_in;
        [|symmetry]; apply sortDesc_perm. }
    rewrite Hperm. unfold hits. rewrite filter_In. unfold nameOrCategoryMatches.
    rewrite orb_true_iff. unfold regex.
    now rewrite !pathMatches_plain.
  - apply sortDesc_perm.
  - apply sortDesc_sorted.
Qed.

(** On creation the owner is the caller, whatever the payload names. *)
Lemma created_product_owned_by_caller authorization now user body oid db :
  authenticated authorization now user ->
  role user = Some "wholesaler" ->
  exists product,
    post_products authorization body oid now db
    = (mkDb (users db) (products db ++ [product]) (orders db),
       Reply 201 (JObj [("success", JBool true);
                        ("product", Product.toJSON product)]))
    /\ Product.wholesalerId product = Some (id user)
    /\ Product._id product = oid.
Proof.
  intros Hauth Hrole.
  exists (Product.new (Product.spreadWithOwner body (id user)) oid now).
  unfold post_products. rewrite (authMiddleware_pass _ _ _ _ _ Hauth).
  unfold isWholesaler. rewrite Hrole. cbn. repeat split.
Qed.

(** An update whose body does not set [wholesalerId] keeps every owner. *)
Lemma findOneAndUpdate_keeps_owners pid caller body now coll :
  Product.b_wholesalerId body = None ->
  map Product.wholesalerId
      (fst (Product.findOneAndUpdate pid caller body now coll))
  = map Product.wholesalerId coll.
Proof.
  intros Hb. induction coll as [|p rest IH]; [reflexivity|].
  cbn [Product.findOneAndUpdate].
  destruct (Product.ownedBy pid caller p).
  - cbn [fst map Product.applyUpdate Product.wholesalerId].
    now rewrite Hb.
  - destruct (Product.findOneAndUpdate pid caller body now rest) as [r f].
    cbn [fst map] in *. now rewrite IH.
Qed.

End Catalog.

(** * The routes on a concrete store *)

(** C1: wholesaler 1 creates a product with a payload that names wholesaler
    2 as owner, and the stored owner is wholesaler 1; wholesaler 1 then
    sends [PUT] with [{wholesalerId: 2}] for that product and is answered
    200, after which the stored owner is wholesaler 2. *)
Theorem C1_update_reassigns_owner :
  let payload := Product.mkBody (Some "Bolt") None None None (Some 2) in
  let created :=
    post_products (P := Demo.platform) (Some "Bearer tokenA") payload 12 300
                  Demo.db in
  let takeover := Product.mkBody None None None None (Some 2) in
  let updated :=
    put_product (P := Demo.platform) (Some "Bearer tokenA") 12 takeover 400
                (fst created) in
  map (fun p => (Product._id p, Product.wholesalerId p))
      (products (fst created))
  = [(10, Some 1); (11, Some 2); (12, Some 1)]
  /\ statusOf (snd updated) = Some 200
  /\ map (fun p => (Product._id p, Product.wholesalerId p))
         (products (fst updated))
     = [(10, Some 1); (11, Some 2); (12, Some 2)].
Proof. vm_compute. repeat split. Qed.

Lemma demo_tokenA :
  authenticated (P := Demo.platform) (Some "Bearer tokenA") 300
                (mkToken 1 (Some "wholesaler")).
Proof. exists "Bearer tokenA". repeat split. Defined.

Lemma demo_tokenC :
  authenticated (P := Demo.platform) (Some "Bearer tokenC") 300
                (mkToken 3 (Some "retailer")).
Proof. exists "Bearer tokenC". repeat split. Defined.

Lemma demo_gadget_not_owned : notOwned 11 1 (products Demo.db).
Proof.
  intros p [<-|[<-|[]]]; cbn; intros Hid; discriminate.
Defined.

Lemma cast_request_on_foreign_product_example :
  authenticated (P := Demo.platform) (Some "Bearer tokenA") 300
                (mkToken 1 (Some "wholesaler"))
  /\ notOwned 11 1 (products Demo.db)
  /\ delete_product (P := Demo.platform) (Some "Bearer tokenA") 11 300 Demo.db
     = (Demo.db, failure 403 "Not allowed")
  /\ put_product (P := Demo.platform) (Some "Bearer tokenA") 11
                 (Product.mkBody (Some "Mine") None None None None) 300
                 Demo.db
     = (Demo.db, Reply 403 (JObj [("success", JBool false)])).
Proof.
  split; [exact demo_tokenA|]. split; [exact demo_gadget_not_owned|].
  exact (cast_request_on_foreign_product_forbidden
           (P := Demo.platform) (Some "Bearer tokenA") 300
           (mkToken 1 (Some "wholesaler")) 11
           (Product.mkBody (Some "Mine") None None None None) Demo.db
           demo_tokenA demo_gadget_not_owned).
Defined.


Lemma demo_plain_wid : noSyntaxChar "wid".
Proof. repeat constructor. Defined.

Lemma C5_witness :
  noSyntaxChar "wid"
  /\ exists result,
      get_products (Some "wid") Demo.db = Some (Demo.db, productList result)
      /\ (forall p,
             In p result <->
             In p (products Demo.db) /\
             (pathContainsCI "wid" (Product.name p) \/
              pathContainsCI "wid" (Product.category p)))
      /\ Permutation result
           (filter (nameOrCategoryMatches (RegExp.mk false "wid"))
                   (products Demo.db))
      /\ newestFirst result.
Proof.
  split; [exact demo_plain_wid|].
  exact (C5_plain_search_lists_substring_matches "wid" Demo.db
           demo_plain_wid).
Defined.

(** C5 as stated fails: the search string [^wid] lists the product named
    "Widget", although neither its name nor its category contains the four
    characters [^wid]. *)
Lemma C5_counterexample :
  get_products (Some "^wid") Demo.db
  = Some (Demo.db, productList [Demo.widget])
  /\ ~ pathContainsCI "^wid" (Product.name Demo.widget)
  /\ ~ pathContainsCI "^wid" (Product.category Demo.widget).
Proof.
  split; [reflexivity|].
  split; intros H; apply pathMatches_plain in H; discriminate H.
Qed.

Lemma C6_witness :
  authenticated (P := Demo.platform) (Some "Bearer tokenC") 300
                (mkToken 3 (Some "retailer"))
  /\ role (mkToken 3 (Some "retailer")) <> Some "wholesaler"
  /\ post_products (P := Demo.platform) (Some "Bearer tokenC")
                   (Product.mkBody (Some "Widget") (Some (10 # 1)%Q)
                                   None None None)
                   12 300 Demo.db
     = (Demo.db, failure 403 "Only wholesalers can add products").
Proof.
  assert (Hrole : role (mkToken 3 (Some "retailer")) <> Some "wholesaler")
    by discriminate.
  split; [exact demo_tokenC|]. split; [exact Hrole|].
  exact (proj1 (C6_only_wholesalers_create_products
                  (P := Demo.platform) (Some "Bearer tokenC") 300
                  (mkToken 3 (Some "retailer"))
                  (Product.mkBody (Some "Widget") (Some (10 # 1)%Q)
                                  None None None)
                  12 Demo.db demo_tokenC Hrole)).
Defined.

Lemma C7_witness :
  let body :=
    User.mkBody (Some "Copycat") (Some "acme@x.com") (Some "pw")
                (Some "retailer") None None None None in
  In Demo.acme (users Demo.db)
  /\ User.email Demo.acme = Some "acme@x.com"
  /\ User.b_email body = Some "acme@x.com"
  /\ exists err,
      post_signup (P := Demo.platform) body 4 300 Demo.db
      = (Demo.db, failure 400 (Demo.message err))
      /\ (User.validate (User.new body 4 300) = None ->
          err = DuplicateKey "email" (Some "acme@x.com")).
Proof.
  cbn zeta.
  split; [left; reflexivity|]. split; [reflexivity|]. split; [reflexivity|].
  exact (C7_duplicate_email_rejected
           (P := Demo.platform)
           (User.mkBody (Some "Copycat") (Some "acme@x.com") (Some "pw")
                        (Some "retailer") None None None None)
           4 300 Demo.db Demo.acme "acme@x.com"
           (or_introl eq_refl) eq_refl eq_refl).
Defined.

Lemma cast_order_created_example :
  let body :=
    Order.mkBody (Some "Widget") (Some (10 # 1)%Q) (Some (2 # 1)%Q)
                 None None None None None None None None None in
  Order.b_paymentStatus body = None
  /\ Order.b_status body = None
  /\ statusOf (snd (post_orders None body 20 300 Demo.db)) = Some 201
  /\ Order.paymentStatus (Order.new body 20 300) = Some "Pending"
  /\ Order.status (Order.new body 20 300) = Some "Processing".
Proof.
  cbn zeta. split; [reflexivity|]. split; [reflexivity|].
  destruct (cast_order_created_with_defaults
              None
              (Order.mkBody (Some "Widget") (Some (10 # 1)%Q)
                            (Some (2 # 1)%Q)
                            None None None None None None None None None)
              20 300 Demo.db) as (H201 & _ & _ & Hpay & Hstatus).
  split; [exact H201|].
  split; [exact (Hpay eq_refl)|exact (Hstatus eq_refl)].
Defined.

Lemma cast_order_statuses_example :
  let body :=
    Order.mkBody (Some "Widget") (Some (10 # 1)%Q) (Some (2 # 1)%Q)
                 None None (Some "Paid") None None None None None
                 (Some "Delivered") in
  Order.b_paymentStatus body = Some "Paid"
  /\ Order.b_status body = Some "Delivered"
  /\ statusOf (snd (post_orders None body 20 300 Demo.db)) = Some 201
  /\ Order.paymentStatus (Order.new body 20 300) = Some "Paid"
  /\ Order.status (Order.new body 20 300) = Some "Delivered".
Proof.
  cbn zeta. split; [reflexivity|]. split; [reflexivity|].
  destruct (cast_order_statuses_from_payload
              None
              (Order.mkBody (Some "Widget") (Some (10 # 1)%Q)
                            (Some (2 # 1)%Q)
                            None None (Some "Paid") None None None None None
                            (Some "Delivered"))
              20 300 Demo.db) as (H201 & _ & Hpay & Hstatus).
  split; [exact H201|].
  split; [exact (Hpay _ eq_refl)|exact (Hstatus _ eq_refl)].
Defined.

Lemma C9_witness :
  chargeRequest (mkChargeBody (Some (4996 # 10)%Q)) 1700
  = mkCharge (Some 500%Z) "INR" "receipt_1700"
  /\ (receiptOf 1700 = receiptOf 1700 -> 1700 = 1700).
Proof.
  destruct (C9_charge_amount_rounded
              (P := Demo.platform) (4996 # 10)%Q 1700 Demo.db)
    as (Hreq & _ & _ & _ & Hinj & _).
  split; [exact Hreq|exact (Hinj 1700)].
Defined.

(** * Further properties of the routes *)

(** ** The gate in front of the protected routes *)
Section Gate.
Context `{P : Platform}.

Lemma authMiddleware_noBearer authorization now next db :
  noBearer authorization ->
  authMiddleware authorization now next db = (db, failure 401 "Unauthorized").
Proof.
  unfold noBearer, authMiddleware.
  destruct authorization as [h|]; [|reflexivity]. now intros ->.
Qed.

Lemma authMiddleware_badToken authHeader now next db :
  String.prefix "Bearer " authHeader = true ->
  jwt_verify (nth_error (split " "%char authHeader) 1) JWT_SECRET now = None ->
  authMiddleware (Some authHeader) now next db
  = (db, failure 401 "Invalid token").
Proof. unfold authMiddleware. now intros -> ->. Qed.

(** X1: without an Authorization header, or with one that does not start
    with "Bearer ", each of the five protected routes answers 401
    "Unauthorized" and leaves the store as it was. *)
Theorem X1_protected_routes_need_bearer_header
        authorization now pid body oid db :
  noBearer authorization ->
  let refused := (db, failure 401 "Unauthorized") in
  get_products_my authorization now db = refused
  /\ post_products authorization body oid now db = refused
  /\ delete_product authorization pid now db = refused
  /\ put_product authorization pid body now db = refused
  /\ get_orders authorization now db = refused.
Proof.
  intros H. cbn zeta.
  unfold get_products_my, post_products, delete_product, put_product,
    get_orders.
  now rewrite !(authMiddleware_noBearer _ _ _ _ H).
Qed.

(** X2: with a bearer header whose token [jwt.verify] refuses, each of the
    five protected routes answers 401 "Invalid token" and leaves the store
    as it was. *)
Theorem X2_protected_routes_refuse_bad_token
        authHeader now pid body oid db :
  String.prefix "Bearer " authHeader = true ->
  jwt_verify (nth_error (split " "%char authHeader) 1) JWT_SECRET now = None ->
  let refused := (db, failure 401 "Invalid token") in
  get_products_my (Some authHeader) now db = refused
  /\ post_products (Some authHeader) body oid now db = refused
  /\ delete_product (Some authHeader) pid now db = refused
  /\ put_product (Some authHeader) pid body now db = refused
  /\ get_orders (Some authHeader) now db = refused.
Proof.
  intros Hpre Hbad. cbn zeta.
  unfold get_products_my, post_products, delete_product, put_product,
    get_orders.
  now rewrite !(authMiddleware_badToken _ _ _ _ Hpre Hbad).
Qed.

Lemma split_lacks sep t : lacks sep t -> split sep t = [t].
Proof.
  unfold lacks. induction t as [|c t IH]; [reflexivity|].
  cbn [list_ascii_of_string split]. intros H.
  inversion H as [|? ? Hc Ht]; subst. rewrite Hc, (IH Ht). reflexivity.
Qed.

Lemma split_app sep a b :
  lacks sep a ->
  split sep (String.append a (String sep b)) = a :: split sep b.
Proof.
  unfold lacks. induction a as [|c a IH]; cbn [String.append split].
  - intros _. now rewrite Ascii.eqb_refl.
  - cbn [list_ascii_of_string]. intros H.
    inversion H as [|? ? Hc Ha]; subst. rewrite Hc, (IH Ha). reflexivity.
Qed.

Lemma bearer_token_plain t :
  lacks " "%char t ->
  nth_error (split " "%char (String.append "Bearer " t)) 1 = Some t.
Proof. intros H. cbn. now rewrite (split_lacks _ _ H). Qed.

Lemma bearer_token_cut t rest :
  lacks " "%char t ->
  nth_error
    (split " "%char
           (String.append "Bearer " (String.append t (String " " rest)))) 1
  = Some t.
Proof. intros H. cbn. now rewrite (split_app _ _ _ H). Qed.

Lemma bearer_prefix x :
  String.prefix "Bearer " (String.append "Bearer " x) = true.
Proof. destruct x; reflexivity. Qed.

(** X3: the token that is verified is the text between "Bearer " and the
    next space, if any: whatever follows that space is never looked at. *)
Theorem X3_token_is_second_word t rest now next db :
  lacks " "%char t ->
  let outcome :=
    match jwt_verify (Some t) JWT_SECRET now with
    | Some user => next user db
    | None => (db, failure 401 "Invalid token")
    end in
  authMiddleware (Some (String.append "Bearer " t)) now next db = outcome
  /\ authMiddleware
       (Some (String.append "Bearer " (String.append t (String " " rest))))
       now next db
     = outcome.
Proof.
  intros H. cbn zeta. unfold authMiddleware.
  rewrite !bearer_prefix. cbn [negb].
  rewrite (bearer_token_plain _ H), (bearer_token_cut _ rest H).
  split; reflexivity.
Qed.

End Gate.

(** ** Accounts, continued *)
Section Registration.
Context `{P : Platform}.

Lemma optString_eqb_eq a b : optString_eqb a b = true <-> a = b.
Proof.
  destruct a as [x|], b as [y|]; cbn [optString_eqb].
  - rewrite String.eqb_eq. split; congruence.
  - split; discriminate.
  - split; discriminate.
  - split; reflexivity.
Qed.

Lemma validate_allowed u :
  roleAllowed (User.role u) -> User.validate u = None.
Proof.
  unfold roleAllowed, User.validate.
  destruct (User.role u) as [r|]; [|reflexivity]. intros Hin.
  replace (existsb (String.eqb r) User.roleEnum) with true; [reflexivity|].
  symmetry. apply existsb_exists. exists r.
  split; [exact Hin|apply String.eqb_refl].
Qed.

Lemma validate_refused u r :
  User.role u = Some r -> ~ In r User.roleEnum ->
  User.validate u = Some (ValidationError "role" r).
Proof.
  intros Hr Hout. unfold User.validate. rewrite Hr.
  destruct (existsb (String.eqb r) User.roleEnum) eqn:E; [|reflexivity].
  apply existsb_exists in E as (x & Hin & Hx).
  apply String.eqb_eq in Hx. now subst.
Qed.

Lemma emailTaken_spec coll e :
  User.emailTaken coll e = true <-> In e (map User.email coll).
Proof.
  unfold User.emailTaken. rewrite existsb_exists, in_map_iff.
  split; intros (u & H1 & H2).
  - exists u. split; [now apply optString_eqb_eq|exact H1].
  - exists u. split; [exact H2|now apply optString_eqb_eq].
Qed.

Lemma emailTaken_free coll e :
  emailFree e coll -> User.emailTaken coll e = false.
Proof.
  intros Hfree. destruct (User.emailTaken coll e) eqn:E; [|reflexivity].
  apply emailTaken_spec, in_map_iff in E as (u & Hu & Hin).
  now destruct (Hfree u Hin).
Qed.

Lemma preSave_password u :
  User.password (User.preSave bcrypt_hash u)
  = option_map (fun pw => bcrypt_hash pw SALT_ROUNDS) (User.password u).
Proof. now destruct u as [? ? ? [pw|] ? ? ? ? ? ? ?]. Qed.

Lemma preSave_rest u :
  let u' := User.preSave bcrypt_hash u in
  User._id u' = User._id u /\ User.role u' = User.role u
  /\ User.createdAt u' = User.createdAt u.
Proof. unfold User.preSave. now destruct (User.password u). Qed.

Lemma signup_accepted body oid now db :
  roleAllowed (User.b_role body) ->
  emailFree (User.b_email body) (users db) ->
  exists user,
    post_signup body oid now db
    = (mkDb (users db ++ [user]) (products db) (orders db),
       Reply 201 (JObj [("success", JBool true);
                        ("message", JStr "Account created");
                        ("user", User.toJSON user)]))
    /\ User._id user = oid
    /\ User.email user = User.b_email body
    /\ User.role user = User.b_role body
    /\ User.createdAt user = now
    /\ User.password user
       = option_map (fun pw => bcrypt_hash pw SALT_ROUNDS)
                    (User.b_password body).
Proof.
  intros Hrole Hfree.
  exists (User.preSave bcrypt_hash (User.new body oid now)).
  unfold post_signup, User.save.
  rewrite validate_allowed by exact Hrole.
  rewrite preSave_email. cbn [User.new User.email].
  rewrite (emailTaken_free _ _ Hfree).
  rewrite preSave_password.
  destruct (preSave_rest (User.new body oid now)) as (-> & -> & ->).
  repeat split.
Qed.

(** Once the body is cast: a signup whose role passes the validator and
    whose email no stored user has is answered 201 and appends one user to
    the store: the one sent, with the server's id and clock, holding the
    bcrypt hash of the password in place of the password. *)
Theorem cast_signup_stores_hashed_account body oid now db :
  roleAllowed (User.b_role body) ->
  emailFree (User.b_email body) (users db) ->
  exists user,
    post_signup body oid now db
    = (mkDb (users db ++ [user]) (products db) (orders db),
       Reply 201 (JObj [("success", JBool true);
                        ("message", JStr "Account created");
                        ("user", User.toJSON user)]))
    /\ User._id user = oid
    /\ User.email user = User.b_email body
    /\ User.role user = User.b_role body
    /\ User.createdAt user = now
    /\ User.password user
       = option_map (fun pw => bcrypt_hash pw SALT_ROUNDS)
                    (User.b_password body).
Proof. exact (signup_accepted body oid now db). Qed.

(** X5: a signup whose role is not one of admin, wholesaler, retailer is
    answered 400 with the message of the validation error on [role], also
    when its email is free, and the store is left as it was. *)
Theorem X5_signup_rejects_unknown_role body oid now db r :
  User.b_role body = Some r ->
  ~ In r User.roleEnum ->
  post_signup body oid now db
  = (db, failure 400 (err_message (ValidationError "role" r))).
Proof.
  intros Hr Hout. unfold post_signup, User.save.
  rewrite (validate_refused _ r) by (cbn; assumption).
  now rewrite mkDb_eta.
Qed.

(** X6: if no two stored users share an email, no signup changes that,
    whatever is sent. *)
Theorem X6_signup_keeps_emails_distinct body oid now db :
  emailsDistinct (users db) ->
  emailsDistinct (users (fst (post_signup body oid now db))).
Proof.
  unfold emailsDistinct, post_signup, User.save. intros Hnd.
  destruct (User.validate _); [exact Hnd|].
  destruct (User.emailTaken _ _) eqn:E; [exact Hnd|].
  cbn [fst users]. rewrite map_app. cbn [map].
  eapply Permutation_NoDup; [apply Permutation_cons_append|].
  constructor; [|exact Hnd].
  intros Hin. apply emailTaken_spec in Hin. congruence.
Qed.

Lemma find_none_of_existsb {A} (f : A -> bool) l :
  existsb f l = false -> find f l = None.
Proof.
  induction l as [|x l IH]; [reflexivity|]. cbn [existsb find].
  destruct (f x); [discriminate|exact IH].
Qed.

Lemma find_app_last {A} (f : A -> bool) l x :
  find f l = None -> f x = true -> find f (l ++ [x]) = Some x.
Proof.
  induction l as [|y l IH]; cbn [find app]; intros Hl Hx.
  - now rewrite Hx.
  - destruct (f y); [discriminate|now apply IH].
Qed.

(** X7: after a signup that was accepted, a login with the same email and
    password is answered 200 with a token for the new user's id and role,
    provided bcrypt accepts a password against its own hash. *)
Theorem X7_signup_then_login body oid now now' db e pw :
  User.b_email body = Some e ->
  User.b_password body = Some pw ->
  roleAllowed (User.b_role body) ->
  emailFree (Some e) (users db) ->
  bcrypt_compare (Some pw) (Some (bcrypt_hash pw SALT_ROUNDS)) = Some true ->
  let db' := fst (post_signup body oid now db) in
  exists user,
    post_login (mkLogin (Some e) (Some pw)) now' db'
    = (db', Reply 200
              (JObj [("success", JBool true);
                     ("token",
                      JStr (jwt_sign (mkToken oid (User.b_role body))
                                     JWT_SECRET now'));
                     ("user", User.toJSON user)]))
    /\ In user (users db').
Proof.
  intros He Hpw Hrole Hfree Hcmp. rewrite <- He in Hfree.
  destruct (signup_accepted body oid now db Hrole Hfree)
    as (user & -> & Hid & Hemail & Hr & _ & Hpass).
  cbn zeta. cbn [fst]. exists user.
  unfold post_login. cbn [l_email l_password users].
  unfold User.findOneByEmail. rewrite (find_app_last _ _ user).
  - rewrite Hpass, Hpw. cbn [option_map]. rewrite Hcmp, Hid, Hr.
    split; [reflexivity|]. apply in_or_app. right. now left.
  - apply find_none_of_existsb. rewrite <- He.
    apply (emailTaken_free _ _ Hfree).
  - rewrite Hemail, He. apply optString_eqb_refl.
Qed.

End Registration.

(** ** Sessions and listings of users *)
Section Sessions.
Context `{P : Platform}.

(** X8: the token a successful login hands out, sent back as
    "Bearer <token>", passes the gate as the user's id and role whenever
    [jwt.verify] accepts what [jwt.sign] made and the token has no space in
    it. *)
Theorem X8_login_token_opens_gate body now now' db user token :
  User.findOneByEmail (l_email body) (users db) = Some user ->
  bcrypt_compare (l_password body) (User.password user) = Some true ->
  token = jwt_sign (mkToken (User._id user) (User.role user)) JWT_SECRET now ->
  lacks " "%char token ->
  jwt_verify (Some token) JWT_SECRET now'
  = Some (mkToken (User._id user) (User.role user)) ->
  post_login body now db
  = (db, Reply 200 (JObj [("success", JBool true);
                          ("token", JStr token);
                          ("user", User.toJSON user)]))
  /\ authenticated (Some (String.append "Bearer " token)) now'
                   (mkToken (User._id user) (User.role user)).
Proof.
  intros Hfound Hcmp Htok Hlacks Hver. split.
  - unfold post_login. now rewrite Hfound, Hcmp, Htok.
  - exists (String.append "Bearer " token).
    split; [reflexivity|]. split; [apply bearer_prefix|].
    now rewrite (bearer_token_plain _ Hlacks).
Qed.

Lemma deleteField_app k a b :
  deleteField k (a ++ b) = deleteField k a ++ deleteField k b.
Proof. apply filter_app. Qed.

Lemma toJSON_dropPassword u : User.toJSON (User.dropPassword u) = User.toJSON u.
Proof.
  destruct u as [i n e pw r bn g sn sa c up].
  unfold User.toJSON, User.toObject, User.dropPassword.
  cbn [User._id User.name User.email User.password User.role
       User.businessName User.gstNumber User.shopName User.shopAddress
       User.createdAt User.updatedAt].
  rewrite !deleteField_app. now destruct pw.
Qed.

(** X9: the wholesaler listing is answered 200 with the stored users whose
    role is wholesaler, all of them and no others, in the order of the
    collection, each serialized as [toJSON] serializes it. *)
Theorem X9_wholesalers_lists_exactly_wholesalers db :
  get_wholesalers db
  = (db, Reply 200
           (JObj [("success", JBool true);
                  ("wholesalers",
                   JArr (map User.toJSON
                             (filter (fun u =>
                                        optString_eqb (User.role u)
                                                      (Some "wholesaler"))
                                     (users db))))]))
  /\ forall u,
      In u (filter (fun u => optString_eqb (User.role u) (Some "wholesaler"))
                   (users db))
      <-> In u (users db) /\ User.role u = Some "wholesaler".
Proof.
  split.
  - unfold get_wholesalers, User.findWholesalers. rewrite map_map.
    rewrite (map_ext _ User.toJSON toJSON_dropPassword). reflexivity.
  - intros u. rewrite filter_In. now rewrite optString_eqb_eq.
Qed.

Lemma getField_deleteField_other k k' fields :
  k <> k' -> getField k (deleteField k' fields) = getField k fields.
Proof.
  intros Hne. unfold deleteField.
  induction fields as [|[k0 v] rest IH]; [reflexivity|].
  cbn [filter fst getField].
  destruct (String.eqb_spec k0 k') as [->|Hk0]; cbn [negb getField].
  - rewrite IH. destruct (String.eqb_spec k' k); [congruence|reflexivity].
  - now rewrite IH.
Qed.

Lemma getField_deleteField_same k fields :
  getField k (deleteField k fields) = None.
Proof.
  unfold deleteField. induction fields as [|[k0 v] rest IH]; [reflexivity|].
  cbn [filter fst]. destruct (String.eqb k0 k) eqn:E; cbn [negb]; [exact IH|].
  cbn [getField]. now rewrite E.
Qed.

(** X10: serializing a user drops the [password] member and nothing else:
    every other member reads as in the document, among them the id, the
    email and the role. *)
Theorem X10_toJSON_keeps_other_members u :
  member "password" (User.toJSON u) = None
  /\ (forall k, k <> "password" ->
                member k (User.toJSON u) = getField k (User.toObject u))
  /\ member "_id" (User.toJSON u) = Some (JId (User._id u))
  /\ member "email" (User.toJSON u) = option_map JStr (User.email u)
  /\ member "role" (User.toJSON u) = option_map JStr (User.role u).
Proof.
  unfold User.toJSON. cbn [member]. split; [|split].
  - apply getField_deleteField_same.
  - intros k Hk. now apply getField_deleteField_other.
  - rewrite !getField_deleteField_other by discriminate.
    destruct u as [i [n|] [e|] [pw|] [r|] [bn|] [g|] [sn|] [sa|] c up];
      (split; [|split]); reflexivity.
Qed.

End Sessions.

(** ** The catalog, continued *)
Section Shelves.
Context `{P : Platform}.

Lemma ownedBy_spec pid caller p :
  Product.ownedBy pid caller p = true
  <-> Product._id p = pid /\ Product.wholesalerId p = Some caller.
Proof.
  unfold Product.ownedBy. rewrite andb_true_iff, N.eqb_eq.
  destruct (Product.wholesalerId p) as [w|].
  - rewrite N.eqb_eq. split; intros [H1 H2]; split; congruence.
  - split; intros [_ H]; discriminate.
Qed.

Lemma productsOf_spec wid coll :
  (forall p, In p (productsOf wid coll)
             <-> In p coll /\ Product.wholesalerId p = Some wid)
  /\ newestFirst (productsOf wid coll).
Proof.
  unfold productsOf. split; [|apply sortDesc_sorted].
  intros p. split.
  - intros H. apply (Permutation_in _ (sortDesc_perm _ _)) in H.
    apply filter_In in H as [Hin Hw]. split; [exact Hin|].
    destruct (Product.wholesalerId p) as [w|]; [|discriminate].
    apply N.eqb_eq in Hw. now subst.
  - intros [Hin Hw].
    apply (Permutation_in _ (Permutation_sym (sortDesc_perm _ _))).
    apply filter_In. split; [exact Hin|]. rewrite Hw. apply N.eqb_refl.
Qed.

(** Once the path id is cast: the public listing of a wholesaler's
    products is answered 200 with exactly the stored products whose owner
    is that id, newest first. *)
Theorem cast_id_products_of_wholesaler wid db :
  exists result,
    get_products_wholesaler wid db = (db, productList result)
    /\ (forall p, In p result
                  <-> In p (products db)
                      /\ Product.wholesalerId p = Some wid)
    /\ newestFirst result.
Proof.
  exists (productsOf wid (products db)).
  split; [reflexivity|apply productsOf_spec].
Qed.

Lemma filter_nothing {A} (f : A -> bool) l :
  (forall x, In x l -> f x = false) -> filter f l = [].
Proof.
  induction l as [|x l IH]; [reflexivity|]. intros H. cbn [filter].
  rewrite (H x (or_introl eq_refl)). apply IH. intros y Hy. apply H. now right.
Qed.

(** X12: after a wholesaler has created a product, "my products" with the
    same token lists that product, holding the name, price and category
    that were sent, among exactly the products the caller owns, newest
    first; if the caller owned none before, it is the whole listing. *)
Theorem X12_created_product_is_listed
        authorization now now' user body oid db :
  authenticated authorization now user ->
  authenticated authorization now' user ->
  role user = Some "wholesaler" ->
  let db' := fst (post_products authorization body oid now db) in
  exists product result,
    get_products_my authorization now' db' = (db', productList result)
    /\ In product result
    /\ Product._id product = oid
    /\ Product.name product = Product.b_name body
    /\ Product.price product = Product.b_price body
    /\ Product.category product = Product.b_category body
    /\ (forall p, In p result
                  <-> In p (products db')
                      /\ Product.wholesalerId p = Some (id user))
    /\ newestFirst result
    /\ ((forall p, In p (products db) ->
                   Product.wholesalerId p <> Some (id user)) ->
        result = [product]).
Proof.
  intros Hauth Hauth' Hrole. cbn zeta.
  set (product := Product.new (Product.spreadWithOwner body (id user)) oid now).
  assert (Hpost : fst (post_products authorization body oid now db)
                  = mkDb (users db) (products db ++ [product]) (orders db)).
  { unfold post_products. rewrite (authMiddleware_pass _ _ _ _ _ Hauth).
    unfold isWholesaler. rewrite Hrole. reflexivity. }
  rewrite Hpost. set (db' := mkDb _ _ _).
  exists product, (productsOf (id user) (products db')).
  destruct (productsOf_spec (id user) (products db')) as [Hspec Hsorted].
  split; [|split; [|split; [|split; [|split; [|split; [|split; [|split]]]]]]];
    try reflexivity; try assumption.
  - unfold get_products_my. rewrite (authMiddleware_pass _ _ _ _ _ Hauth').
    unfold isWholesaler. rewrite Hrole. reflexivity.
  - apply Hspec. split; [|reflexivity].
    cbn [db' products]. apply in_or_app. right. now left.
  - intros Hnone. unfold productsOf. cbn [db' products].
    rewrite filter_app, filter_nothing.
    + cbn [filter app product Product.new Product.wholesalerId
           Product.spreadWithOwner Product.b_wholesalerId].
      now rewrite N.eqb_refl.
    + intros p Hp. specialize (Hnone p Hp).
      destruct (Product.wholesalerId p) as [w|]; [|reflexivity].
      destruct (N.eqb_spec w (id user)); congruence.
Qed.

(** X13: "my products" is for wholesalers only: any other authenticated
    caller is answered 403 and no listing. *)
Theorem X13_my_products_for_wholesalers_only authorization now user db :
  authenticated authorization now user ->
  role user <> Some "wholesaler" ->
  get_products_my authorization now db
  = (db, Reply 403 (JObj [("success", JBool false)])).
Proof.
  intros Hauth Hrole. unfold get_products_my.
  rewrite (authMiddleware_pass _ _ _ _ _ Hauth). unfold isWholesaler.
  destruct (optString_eqb (role user) (Some "wholesaler")) eqn:E;
    [|reflexivity].
  now apply optString_eqb_eq in E.
Qed.

End Shelves.

(** ** Deleting and updating products *)
Section Upkeep.
Context `{P : Platform}.

Lemma findOne_some pid caller coll p :
  Product.findOne pid caller coll = Some p ->
  In p coll /\ Product._id p = pid /\ Product.wholesalerId p = Some caller.
Proof.
  unfold Product.findOne. intros H. apply find_some in H as [Hin Hown].
  split; [exact Hin|now apply ownedBy_spec].
Qed.

Lemma findOne_hit pid caller coll p :
  In p coll -> Product.ownedBy pid caller p = true ->
  exists q, Product.findOne pid caller coll = Some q.
Proof.
  unfold Product.findOne. intros Hin Hown.
  destruct (find (Product.ownedBy pid caller) coll) as [q|] eqn:E;
    [now exists q|].
  pose proof (find_none _ _ E p Hin). congruence.
Qed.

Lemma deleteOne_In pid coll :
  idsDistinct coll ->
  forall q, In q (Product.deleteOne pid coll)
            <-> In q coll /\ Product._id q <> pid.
Proof.
  unfold idsDistinct. induction coll as [|p rest IH]; intros Hnd q.
  - cbn. tauto.
  - cbn [map] in Hnd. inversion Hnd as [|? ? Hp Hrest]; subst.
    cbn [Product.deleteOne].
    destruct (N.eqb_spec (Product._id p) pid) as [E|E].
    + split.
      * intros Hq. split; [now right|]. intros Hid. apply Hp.
        rewrite E, <- Hid. now apply in_map.
      * intros [[->|Hq] Hid]; [congruence|exact Hq].
    + cbn [In]. rewrite (IH Hrest q). split.
      * intros [->|[Hq Hid]]; [split; [now left|exact E]|].
        split; [now right|exact Hid].
      * intros [[->|Hq] Hid]; [now left|now right].
Qed.

Lemma deleteOne_length pid coll :
  In pid (map Product._id coll) ->
  S (List.length (Product.deleteOne pid coll)) = List.length coll.
Proof.
  induction coll as [|p rest IH]; [intros []|].
  cbn [map In Product.deleteOne].
  destruct (N.eqb_spec (Product._id p) pid) as [E|E]; [reflexivity|].
  intros [H|H]; [congruence|]. cbn [List.length]. now rewrite IH.
Qed.

Lemma deleteOne_distinct pid coll :
  idsDistinct coll -> idsDistinct (Product.deleteOne pid coll).
Proof.
  unfold idsDistinct. induction coll as [|p rest IH]; intros Hnd;
    [exact Hnd|].
  cbn [map] in Hnd. inversion Hnd as [|? ? Hp Hrest]; subst.
  cbn [Product.deleteOne].
  destruct (N.eqb (Product._id p) pid); [exact Hrest|].
  cbn [map]. constructor; [|now apply IH].
  intros Hin. apply Hp. apply in_map_iff in Hin as (q & Hq & Hin).
  apply (deleteOne_In pid rest Hrest) in Hin as [Hin _].
  rewrite <- Hq. now apply in_map.
Qed.

Lemma delete_by_owner authorization now user pid p db :
  authenticated authorization now user ->
  idsDistinct (products db) ->
  In p (products db) ->
  Product._id p = pid ->
  Product.wholesalerId p = Some (id user) ->
  delete_product authorization pid now db
  = (mkDb (users db) (Product.deleteOne pid (products db)) (orders db),
     Reply 200 (JObj [("success", JBool true)])).
Proof.
  intros Hauth Hnd Hin Hid Hown. unfold delete_product.
  rewrite (authMiddleware_pass _ _ _ _ _ Hauth).
  destruct (findOne_hit pid (id user) (products db) p Hin) as [q Hq];
    [now apply ownedBy_spec|].
  rewrite Hq. apply findOne_some in Hq as (_ & -> & _). reflexivity.
Qed.

(** X14: when product ids are distinct, a [DELETE] by the owner is answered
    200 and removes that product and no other: what is left is every
    product with another id, one document fewer; users and orders are
    untouched. *)
Theorem X14_owner_deletes_exactly_one authorization now user pid p db :
  authenticated authorization now user ->
  idsDistinct (products db) ->
  In p (products db) ->
  Product._id p = pid ->
  Product.wholesalerId p = Some (id user) ->
  exists rest,
    delete_product authorization pid now db
    = (mkDb (users db) rest (orders db),
       Reply 200 (JObj [("success", JBool true)]))
    /\ (forall q, In q rest <-> In q (products db) /\ Product._id q <> pid)
    /\ S (List.length rest) = List.length (products db).
Proof.
  intros Hauth Hnd Hin Hid Hown.
  exists (Product.deleteOne pid (products db)).
  split; [now apply (delete_by_owner _ _ user _ p)|].
  split; [now apply deleteOne_In|].
  apply deleteOne_length. rewrite <- Hid. now apply in_map.
Qed.

(** X15: a [DELETE] that succeeded, sent again, is answered 403
    "Not allowed" and changes nothing. *)
Theorem X15_second_delete_forbidden authorization now now' user pid p db :
  authenticated authorization now user ->
  authenticated authorization now' user ->
  idsDistinct (products db) ->
  In p (products db) ->
  Product._id p = pid ->
  Product.wholesalerId p = Some (id user) ->
  let db' := fst (delete_product authorization pid now db) in
  delete_product authorization pid now' db'
  = (db', failure 403 "Not allowed").
Proof.
  intros Hauth Hauth' Hnd Hin Hid Hown. cbn zeta.
  rewrite (delete_by_owner authorization now user pid p db
             Hauth Hnd Hin Hid Hown).
  cbn [fst].
  unfold delete_product. rewrite (authMiddleware_pass _ _ _ _ _ Hauth').
  rewrite findOne_notOwned; [reflexivity|].
  intros q Hq Hqid. cbn [products] in Hq.
  apply (deleteOne_In pid _ Hnd) in Hq as [_ Hne]. congruence.
Qed.

Lemma findOneAndUpdate_ids pid caller body now coll :
  let coll' := fst (Product.findOneAndUpdate pid caller body now coll) in
  map Product._id coll' = map Product._id coll
  /\ map Product.createdAt coll' = map Product.createdAt coll.
Proof.
  cbn zeta. induction coll as [|p rest IH]; [now split|].
  cbn [Product.findOneAndUpdate].
  destruct (Product.ownedBy pid caller p); [now split|].
  destruct (Product.findOneAndUpdate pid caller body now rest) as [r f].
  cbn [fst map] in *. destruct IH as [-> ->]. now split.
Qed.

Lemma put_product_cases authorization pid body now db :
  put_product authorization pid body now db
  = (db, failure 401 "Unauthorized")
  \/ put_product authorization pid body now db
     = (db, failure 401 "Invalid token")
  \/ exists caller o,
      put_product authorization pid body now db
      = (mkDb (users db)
              (fst (Product.findOneAndUpdate pid caller body now
                                             (products db)))
              (orders db), o).
Proof.
  unfold put_product, authMiddleware.
  destruct authorization as [h|]; [|now left].
  destruct (negb (String.prefix "Bearer " h)); [now left|].
  destruct (jwt_verify _ _ _) as [user|]; [|now right; left].
  right; right. exists (id user).
  destruct (Product.findOneAndUpdate pid (id user) body now (products db))
    as [coll [product|]]; eexists; reflexivity.
Qed.


(** Once the body is cast to plain paths: a [PUT] that does not set
    [wholesalerId] leaves the owner of every product as it was. *)
Theorem cast_put_without_owner_keeps_owners authorization pid body now db :
  Product.b_wholesalerId body = None ->
  map Product.wholesalerId
      (products (fst (put_product authorization pid body now db)))
  = map Product.wholesalerId (products db).
Proof.
  intros Hb.
  destruct (put_product_cases authorization pid body now db)
    as [->|[->|(caller & o & ->)]]; cbn [fst products]; try reflexivity.
  now apply findOneAndUpdate_keeps_owners.
Qed.

End Upkeep.

(** ** Updates in place and the identity of products *)
Section Identity.
Context `{P : Platform}.

Lemma findOneAndUpdate_hit pid caller body now coll p :
  idsDistinct coll ->
  In p coll ->
  Product.ownedBy pid caller p = true ->
  exists before after,
    coll = before ++ p :: after
    /\ Product.findOneAndUpdate pid caller body now coll
       = (before ++ Product.applyUpdate body now p :: after,
          Some (Product.applyUpdate body now p)).
Proof.
  unfold idsDistinct. induction coll as [|q rest IH]; intros Hnd Hin Hown;
    [destruct Hin|].
  cbn [map] in Hnd. inversion Hnd as [|? ? Hq Hrest]; subst.
  cbn [Product.findOneAndUpdate].
  destruct (Product.ownedBy pid caller q) eqn:Eq.
  - assert (q = p) as ->.
    { destruct Hin as [E|Hin]; [exact E|]. exfalso. apply Hq.
      apply ownedBy_spec in Eq as [Eq _].
      apply ownedBy_spec in Hown as [Hown _].
      rewrite Eq, <- Hown. now apply in_map. }
    now exists [], rest.
  - destruct Hin as [->|Hin]; [congruence|].
    destruct (IH Hrest Hin Hown) as (before & after & -> & ->).
    now exists (q :: before), after.
Qed.

(** Once the body is cast to plain paths and product ids are distinct: a
    [PUT] by the owner is answered 200 and replaces that product where it
    stands. *)
Theorem cast_put_by_owner_updates_in_place
        authorization now user pid body p db :
  authenticated authorization now user ->
  idsDistinct (products db) ->
  In p (products db) ->
  Product._id p = pid ->
  Product.wholesalerId p = Some (id user) ->
  exists before after p',
    products db = before ++ p :: after
    /\ put_product authorization pid body now db
       = (mkDb (users db) (before ++ p' :: after) (orders db),
          Reply 200 (JObj [("success", JBool true);
                           ("product", Product.toJSON p')]))
    /\ Product._id p' = pid
    /\ Product.createdAt p' = Product.createdAt p
    /\ Product.updatedAt p' = now
    /\ Product.name p'
       = match Product.b_name body with
         | Some n => Some n
         | None => Product.name p
         end
    /\ Product.price p'
       = match Product.b_price body with
         | Some x => Some x
         | None => Product.price p
         end.
Proof.
  intros Hauth Hnd Hin Hid Hown.
  assert (Hp : Product.ownedBy pid (id user) p = true)
    by now apply ownedBy_spec.
  destruct (findOneAndUpdate_hit pid (id user) body now _ p Hnd Hin Hp)
    as (before & after & Hsplit & Hupd).
  exists before, after, (Product.applyUpdate body now p).
  split; [exact Hsplit|]. split.
  - unfold put_product. rewrite (authMiddleware_pass _ _ _ _ _ Hauth).
    now rewrite Hupd.
  - cbn [Product.applyUpdate Product._id Product.createdAt Product.updatedAt
         Product.name Product.price].
    unfold Product.orElse.
    destruct (Product.b_name body), (Product.b_price body);
      repeat split; assumption.
Qed.

(** X19: distinct product ids stay distinct: under every [PUT] and every
    [DELETE], and under a [POST] whose new id no stored product has. *)
Theorem X19_product_ids_stay_distinct authorization pid body oid now db :
  idsDistinct (products db) ->
  idsDistinct (products (fst (put_product authorization pid body now db)))
  /\ idsDistinct (products (fst (delete_product authorization pid now db)))
  /\ (~ In oid (map Product._id (products db)) ->
      idsDistinct
        (products (fst (post_products authorization body oid now db)))).
Proof.
  intros Hnd. split; [|split].
  - unfold idsDistinct in *.
    destruct (put_product_cases authorization pid body now db)
      as [->|[->|(caller & o & ->)]]; cbn [fst products]; try exact Hnd.
    destruct (findOneAndUpdate_ids pid caller body now (products db))
      as [-> _]. exact Hnd.
  - unfold delete_product, authMiddleware.
    destruct authorization as [h|]; [|exact Hnd].
    destruct (negb (String.prefix "Bearer " h)); [exact Hnd|].
    destruct (jwt_verify _ _ _) as [user|]; [|exact Hnd].
    destruct (Product.findOne pid (id user) (products db)); [|exact Hnd].
    cbn [fst products]. now apply deleteOne_distinct.
  - intros Hfresh. unfold post_products, authMiddleware.
    destruct authorization as [h|]; [|exact Hnd].
    destruct (negb (String.prefix "Bearer " h)); [exact Hnd|].
    destruct (jwt_verify _ _ _) as [user|]; [|exact Hnd].
    destruct (negb (isWholesaler user)); [exact Hnd|].
    cbn [fst products]. unfold idsDistinct, Product.save in *.
    rewrite map_app. cbn [map Product.new Product._id].
    eapply Permutation_NoDup; [apply Permutation_cons_append|].
    now constructor.
Qed.

(** X20: each route writes to its own collection only: signup leaves
    products and orders as they were, the product routes leave users and
    orders, and placing an order leaves users and products. *)
Theorem X20_routes_keep_to_their_collection
        authorization ubody pbody obody pid oid now db :
  (let db' := fst (post_signup ubody oid now db) in
   products db' = products db /\ orders db' = orders db)
  /\ (let db' := fst (post_products authorization pbody oid now db) in
      users db' = users db /\ orders db' = orders db)
  /\ (let db' := fst (delete_product authorization pid now db) in
      users db' = users db /\ orders db' = orders db)
  /\ (let db' := fst (post_orders authorization obody oid now db) in
      users db' = users db /\ products db' = products db).
Proof.
  cbn zeta. split; [|split; [|split]].
  - unfold post_signup. destruct (User.save _ _ _) as [coll [err|saved]];
      now split.
  - unfold post_products, authMiddleware.
    destruct authorization as [h|]; [|now split].
    destruct (negb (String.prefix "Bearer " h)); [now split|].
    destruct (jwt_verify _ _ _) as [user|]; [|now split].
    destruct (negb (isWholesaler user)); now split.
  - unfold delete_product, authMiddleware.
    destruct authorization as [h|]; [|now split].
    destruct (negb (String.prefix "Bearer " h)); [now split|].
    destruct (jwt_verify _ _ _) as [user|]; [|now split].
    destruct (Product.findOne pid (id user) (products db)); now split.
  - now split.
Qed.

(** X21: the routes that only read change nothing in the store, whatever
    they are sent and whatever they answer: login, the wholesaler listing,
    the three product listings, the order listing, the charge order and the
    key. *)
Theorem X21_reading_routes_change_nothing
        authorization lbody cbody wid search now db :
  fst (post_login lbody now db) = db
  /\ fst (get_wholesalers db) = db
  /\ fst (get_products_wholesaler wid db) = db
  /\ fst (get_products_my authorization now db) = db
  /\ (forall result, get_products search db = Some result -> fst result = db)
  /\ fst (get_orders authorization now db) = db
  /\ fst (create_order cbody now db) = db
  /\ fst (get_razorpay_key db) = db.
Proof.
  repeat match goal with |- _ /\ _ => split end; try reflexivity.
  - unfold post_login. destruct (User.findOneByEmail _ _); [|reflexivity].
    now destruct (bcrypt_compare _ _) as [[|]|].
  - unfold get_products_my. apply authMiddleware_unchanged.
    intros user db0. now destruct (negb (isWholesaler user)).
  - unfold get_products. intros result.
    destruct (RegExp.compile _); [|discriminate]. now intros [= <-].
  - unfold get_orders. now apply authMiddleware_unchanged.
  - unfold create_order. now destruct (razorpay_orders_create _).
Qed.

End Identity.

(** ** Orders and charges, continued *)
Section Counter.
Context `{P : Platform}.

(** X22: every caller with a token the gate accepts, of whatever role,
    is answered 200 with all the stored orders, each once, newest first. *)
Theorem X22_any_authenticated_caller_lists_all_orders
        authorization now user db :
  authenticated authorization now user ->
  exists result,
    get_orders authorization now db
    = (db, Reply 200 (JObj [("success", JBool true);
                            ("orders", JArr (map Order.toJSON result))]))
    /\ Permutation result (orders db)
    /\ ordersNewestFirst result.
Proof.
  intros Hauth. exists (sortDesc Order.createdAt (orders db)).
  split; [|split].
  - unfold get_orders. now rewrite (authMiddleware_pass _ _ _ _ _ Hauth).
  - apply sortDesc_perm.
  - apply sortDesc_sorted.
Qed.

Lemma sortDesc_newest_last {A} (key : A -> N) l x :
  (forall y, In y l -> (key y < key x)%N) ->
  sortDesc key (l ++ [x]) = x :: sortDesc key l.
Proof.
  induction l as [|y l IH]; intros Hlt; [reflexivity|].
  cbn [app]. unfold sortDesc in *. cbn [fold_right].
  rewrite IH by (intros z Hz; apply Hlt; now right).
  cbn [insertDesc].
  destruct (N.leb_spec (key x) (key y)) as [Hle|_]; [|reflexivity].
  specialize (Hlt y (or_introl eq_refl)). lia.
Qed.

(** Once the body is cast: an order placed when the clock is past the
    creation time of every stored order heads the order listing. *)
Theorem cast_order_heads_the_listing
        anyone authorization body oid now now' user db :
  authenticated authorization now' user ->
  (forall o, In o (orders db) -> (Order.createdAt o < now)%N) ->
  let db' := fst (post_orders anyone body oid now db) in
  get_orders authorization now' db'
  = (db', Reply 200
            (JObj [("success", JBool true);
                   ("orders",
                    JArr (map Order.toJSON
                              (Order.new body oid now
                                 :: sortDesc Order.createdAt
                                             (orders db))))])).
Proof.
  intros Hauth Hnew. cbn zeta. unfold get_orders.
  rewrite (authMiddleware_pass _ _ _ _ _ Hauth).
  unfold post_orders, Order.save. cbn [fst orders].
  now rewrite sortDesc_newest_last.
Qed.

Local Open Scope Q_scope.

Lemma Qfloor_unique (q : Q) (k : Z) :
  inject_Z k <= q -> q < inject_Z (k + 1) -> Qfloor q = k.
Proof.
  intros Hlo Hhi.
  pose proof (Qfloor_le q) as Flo. pose proof (Qlt_floor q) as Fhi.
  assert (H1 : inject_Z (Qfloor q) < inject_Z (k + 1))
    by (eapply Qle_lt_trans; eassumption).
  assert (H2 : inject_Z k < inject_Z (Qfloor q + 1))
    by (eapply Qle_lt_trans; eassumption).
  rewrite <- Zlt_Qlt in H1, H2. lia.
Qed.

(** X24: an amount that is already an integer is forwarded to the gateway
    as it is; an amount half way between two integers is forwarded as the
    upper one, also below zero; and a larger amount is never forwarded as a
    smaller one. *)
Theorem X24_rounding_of_charge_amounts (z : Z) (q q' : Q) now :
  chargeRequest (mkChargeBody (Some (inject_Z z))) now
  = mkCharge (Some z) "INR" (receiptOf now)
  /\ Math_round (inject_Z z + (1 # 2)) = (z + 1)%Z
  /\ (q <= q' -> (Math_round q <= Math_round q')%Z).
Proof.
  split; [|split].
  - unfold chargeRequest. cbn [c_amount option_map]. f_equal. f_equal.
    unfold Math_round. apply Qfloor_unique.
    + lra.
    + rewrite inject_Z_plus. change (inject_Z 1) with 1. lra.
  - unfold Math_round. apply Qfloor_unique.
    + rewrite inject_Z_plus. change (inject_Z 1) with 1. lra.
    + rewrite !inject_Z_plus. change (inject_Z 1) with 1. lra.
  - intros Hle. unfold Math_round. apply Qfloor_resp_le. lra.
Qed.

End Counter.

(** ** Search, continued *)
Section Search.

Lemma matchAnywhere_empty s : RegExp.matchAnywhere EmptyString s = true.
Proof. apply matchAnywhere_here. reflexivity. Qed.

Lemma pathMatches_empty v :
  pathMatches (RegExp.mk false EmptyString) v = true <-> v <> None.
Proof.
  unfold pathMatches, RegExp.test. cbn [RegExp.anchored RegExp.literal].
  destruct v as [s|].
  - rewrite matchAnywhere_empty. split; [discriminate|reflexivity].
  - split; [discriminate|congruence].
Qed.

Lemma listing_spec regex db :
  let result :=
    sortDesc Product.createdAt
             (filter (nameOrCategoryMatches regex) (products db)) in
  (forall p, In p result
             <-> In p (products db)
                 /\ (pathMatches regex (Product.name p) = true
                     \/ pathMatches regex (Product.category p) = true))
  /\ newestFirst result.
Proof.
  cbn zeta. split; [|apply sortDesc_sorted]. intros p.
  rewrite <- orb_true_iff. fold (nameOrCategoryMatches regex p).
  rewrite <- filter_In. split; apply Permutation_in;
    [|symmetry]; apply sortDesc_perm.
Qed.

(** X25: a request without [search] and one with an empty [search] are
    answered alike: with every stored product that has a name or a
    category, newest first; a product with neither is never listed. *)
Theorem X25_empty_search_lists_named_products db :
  get_products None db = get_products (Some EmptyString) db
  /\ exists result,
      get_products None db = Some (db, productList result)
      /\ (forall p, In p result
                    <-> In p (products db)
                        /\ (Product.name p <> None
                            \/ Product.category p <> None))
      /\ newestFirst result.
Proof.
  split; [reflexivity|].
  destruct (listing_spec (RegExp.mk false EmptyString) db) as [Hin Hsorted].
  eexists. split; [reflexivity|]. split; [|exact Hsorted].
  intros p. rewrite Hin. now rewrite !pathMatches_empty.
Qed.

Lemma pathMatches_anchored x v :
  pathMatches (RegExp.mk true x) v = true <-> pathStartsWithCI x v.
Proof.
  unfold pathMatches, pathStartsWithCI, startsWithCI, RegExp.test.
  cbn [RegExp.anchored RegExp.literal]. split.
  - destruct v as [s|]; [|discriminate]. intros H.
    exists s. split; [reflexivity|now apply matchHere_spec].
  - intros (s & -> & H). now apply matchHere_spec.
Qed.

(** X26: a search string that is [^] followed by text without syntax
    characters lists exactly the products whose name or category starts
    with that text, up to case, newest first. *)
Theorem X26_caret_search_lists_prefix_matches x db :
  noSyntaxChar x ->
  exists result,
    get_products (Some (String "^"%char x)) db
    = Some (db, productList result)
    /\ (forall p, In p result
                  <-> In p (products db)
                      /\ (pathStartsWithCI x (Product.name p)
                          \/ pathStartsWithCI x (Product.category p)))
    /\ newestFirst result.
Proof.
  intros Hplain.
  destruct (listing_spec (RegExp.mk true x) db) as [Hin Hsorted].
  eexists. split; [|split; [|exact Hsorted]].
  - unfold get_products, searchOrEmpty, RegExp.compile.
    rewrite Ascii.eqb_refl, (atoms_plain _ Hplain). reflexivity.
  - intros p. rewrite Hin. now rewrite !pathMatches_anchored.
Qed.

Lemma upcase_idempotent c : upcase (upcase c) = upcase c.
Proof. destruct c as [[] [] [] [] [] [] [] []]; reflexivity. Qed.

Lemma upcase_plain c :
  RegExp.isSyntaxChar c = false -> RegExp.isSyntaxChar (upcase c) = false.
Proof.
  destruct c as [[] [] [] [] [] [] [] []]; intros H;
    solve [reflexivity | discriminate H].
Qed.

Lemma upcaseString_idempotent s :
  upcaseString (upcaseString s) = upcaseString s.
Proof.
  induction s as [|c s IH]; [reflexivity|].
  cbn [upcaseString]. now rewrite upcase_idempotent, IH.
Qed.

Lemma upcaseString_plain x : noSyntaxChar x -> noSyntaxChar (upcaseString x).
Proof.
  unfold noSyntaxChar. induction x as [|c x IH]; [trivial|].
  cbn [upcaseString list_ascii_of_string]. intros H.
  inversion H as [|? ? Hc Hx]; subst.
  constructor; [now apply upcase_plain|now apply IH].
Qed.

Lemma matchAnywhere_upcase x s :
  RegExp.matchAnywhere (upcaseString x) s = RegExp.matchAnywhere x s.
Proof.
  apply eq_true_iff_eq. rewrite !matchAnywhere_spec. unfold containsCI.
  now setoid_rewrite upcaseString_idempotent.
Qed.

(** X27: the case of the search text does not matter: a search string
    without syntax characters and the same string in upper case are
    answered alike. *)
Theorem X27_search_ignores_case_of_the_query x db :
  noSyntaxChar x ->
  get_products (Some (upcaseString x)) db = get_products (Some x) db.
Proof.
  intros Hplain. unfold get_products, searchOrEmpty.
  rewrite (compile_plain _ Hplain),
    (compile_plain _ (upcaseString_plain _ Hplain)).
  do 4 f_equal. apply filter_ext. intros p.
  unfold nameOrCategoryMatches, pathMatches, RegExp.test.
  cbn [RegExp.anchored RegExp.literal].
  destruct (Product.name p), (Product.category p);
    now rewrite ?matchAnywhere_upcase.
Qed.

End Search.

(** ** The signup page against the server *)
Section SignupForm.
Context `{P : Platform}.

(** X28: whatever is typed into the signup form, the page and the server
    agree: either the account is stored and the page shows the status
    message and redirects to login.html after 2000 ms, or the store is as
    it was and the page alerts the message of the error, "Signup failed"
    standing in for an empty message; the generic failure alert never
    follows an answer of the server. *)
Theorem X28_signup_page_follows_the_server
        name email password role oid now db :
  let result :=
    post_signup (SignupPage.formBody name email password role) oid now db in
  let effects :=
    SignupPage.onResponse (SignupPage.received (snd result)) in
  (exists user,
      fst result = mkDb (users db ++ [user]) (products db) (orders db)
      /\ User.email user = Some email
      /\ effects
         = [SignupPage.ShowStatus;
            SignupPage.RedirectAfter "login.html" 2000])
  \/ (exists err,
         fst result = db
         /\ effects
            = [SignupPage.Alert
                 (JStr (if String.eqb (err_message err) EmptyString
                        then "Signup failed"
                        else err_message err))]).
Proof.
  cbn zeta. unfold post_signup, User.save.
  set (u := User.new _ oid now).
  assert (Hfail : forall err,
             SignupPage.onResponse
               (SignupPage.received (failure 400 (err_message err)))
             = [SignupPage.Alert
                  (JStr (if String.eqb (err_message err) EmptyString
                         then "Signup failed"
                         else err_message err))]).
  { intros err. cbn. now destruct (String.eqb (err_message err) EmptyString). }
  destruct (User.validate u) as [err|].
  - right. exists err. cbn [fst snd]. now rewrite mkDb_eta, Hfail.
  - destruct (User.emailTaken _ _).
    + right. eexists. cbn [fst snd]. now rewrite mkDb_eta, Hfail.
    + left. eexists. cbn [fst snd]. split; [reflexivity|].
      split; [|reflexivity]. now rewrite preSave_email.
Qed.

End SignupForm.

(** * The further properties on the concrete store *)

Lemma demo_tokenA_later :
  authenticated (P := Demo.platform) (Some "Bearer tokenA") 400
                (mkToken 1 (Some "wholesaler")).
Proof. exists "Bearer tokenA". repeat split. Defined.

Lemma demo_ids_distinct : idsDistinct (products Demo.db).
Proof.
  unfold idsDistinct. cbn. repeat constructor; cbn; intuition discriminate.
Defined.

Lemma demo_lacks_space : lacks " "%char "tokenA".
Proof. repeat constructor. Defined.

Lemma demo_email_free : emailFree (Some "new@x.com") (users Demo.db).
Proof. intros u [<-|[<-|[<-|[]]]]; discriminate. Defined.

Lemma demo_role_allowed : roleAllowed (Some "retailer").
Proof. cbn. tauto. Defined.

Lemma X1_witness :
  noBearer (Some "Basic dXNlcg==")
  /\ get_orders (P := Demo.platform) (Some "Basic dXNlcg==") 300 Demo.db
     = (Demo.db, failure 401 "Unauthorized").
Proof.
  assert (H : noBearer (Some "Basic dXNlcg==")) by reflexivity.
  split; [exact H|].
  exact (proj2 (proj2 (proj2 (proj2
           (X1_protected_routes_need_bearer_header
              (P := Demo.platform) (Some "Basic dXNlcg==") 300 10
              demo_rename 12 Demo.db H))))).
Defined.

Lemma X2_witness :
  String.prefix "Bearer " "Bearer forged" = true
  /\ Demo.verify (nth_error (split " "%char "Bearer forged") 1)
                 "nextrade_secret" 300 = None
  /\ delete_product (P := Demo.platform) (Some "Bearer forged") 10 300 Demo.db
     = (Demo.db, failure 401 "Invalid token").
Proof.
  split; [reflexivity|]. split; [reflexivity|].
  exact (proj1 (proj2 (proj2
           (X2_protected_routes_refuse_bad_token
              (P := Demo.platform) "Bearer forged" 300 10 demo_rename 12
              Demo.db eq_refl eq_refl)))).
Defined.

Lemma X3_witness :
  lacks " "%char "tokenA"
  /\ authMiddleware (P := Demo.platform) (Some "Bearer tokenA ignored") 300
                    (fun user db => (db, Reply 200 (JId (id user)))) Demo.db
     = (Demo.db, Reply 200 (JId 1)).
Proof.
  split; [exact demo_lacks_space|].
  exact (proj2 (X3_token_is_second_word
                  (P := Demo.platform) "tokenA" "ignored" 300
                  (fun user db => (db, Reply 200 (JId (id user)))) Demo.db
                  demo_lacks_space)).
Defined.

Lemma cast_signup_stores_hashed_account_example :
  roleAllowed (User.b_role demo_newcomer)
  /\ emailFree (User.b_email demo_newcomer) (users Demo.db)
  /\ exists user,
      post_signup (P := Demo.platform) demo_newcomer 4 300 Demo.db
      = (mkDb (users Demo.db ++ [user]) (products Demo.db) (orders Demo.db),
         Reply 201 (JObj [("success", JBool true);
                          ("message", JStr "Account created");
                          ("user", User.toJSON user)]))
      /\ User._id user = 4
      /\ User.email user = User.b_email demo_newcomer
      /\ User.role user = User.b_role demo_newcomer
      /\ User.createdAt user = 300
      /\ User.password user
         = option_map (fun pw => Demo.hash pw SALT_ROUNDS)
                      (User.b_password demo_newcomer).
Proof.
  split; [exact demo_role_allowed|]. split; [exact demo_email_free|].
  exact (cast_signup_stores_hashed_account
           (P := Demo.platform) demo_newcomer 4 300 Demo.db
           demo_role_allowed demo_email_free).
Defined.

Lemma X5_witness :
  let body :=
    User.mkBody (Some "Eve") (Some "eve@x.com") (Some "pw") (Some "owner")
                None None None None in
  User.b_role body = Some "owner"
  /\ ~ In "owner" User.roleEnum
  /\ post_signup (P := Demo.platform) body 4 300 Demo.db
     = (Demo.db, failure 400 (Demo.message (ValidationError "role" "owner"))).
Proof.
  cbn zeta.
  assert (H : ~ In "owner" User.roleEnum)
    by (cbn; intuition discriminate).
  split; [reflexivity|]. split; [exact H|].
  exact (X5_signup_rejects_unknown_role
           (P := Demo.platform)
           (User.mkBody (Some "Eve") (Some "eve@x.com") (Some "pw")
                        (Some "owner") None None None None)
           4 300 Demo.db "owner" eq_refl H).
Defined.

Lemma demo_emails_distinct : emailsDistinct (users Demo.db).
Proof.
  unfold emailsDistinct. cbn. repeat constructor; cbn; intuition discriminate.
Defined.

Lemma X6_witness :
  emailsDistinct (users Demo.db)
  /\ emailsDistinct
       (users (fst (post_signup (P := Demo.platform) demo_newcomer 4 300
                                Demo.db))).
Proof.
  split; [exact demo_emails_distinct|].
  exact (X6_signup_keeps_emails_distinct
           (P := Demo.platform) demo_newcomer 4 300 Demo.db
           demo_emails_distinct).
Defined.

Lemma X7_witness :
  User.b_email demo_newcomer = Some "new@x.com"
  /\ User.b_password demo_newcomer = Some "pw"
  /\ roleAllowed (User.b_role demo_newcomer)
  /\ emailFree (Some "new@x.com") (users Demo.db)
  /\ Demo.compare (Some "pw") (Some (Demo.hash "pw" SALT_ROUNDS)) = Some true
  /\ exists user,
      post_login (P := Demo.platform)
                 (mkLogin (Some "new@x.com") (Some "pw")) 400
                 (fst (post_signup (P := Demo.platform) demo_newcomer 4 300
                                   Demo.db))
      = (fst (post_signup (P := Demo.platform) demo_newcomer 4 300 Demo.db),
         Reply 200
           (JObj [("success", JBool true);
                  ("token",
                   JStr (Demo.sign (mkToken 4 (Some "retailer"))
                                   "nextrade_secret" 400));
                  ("user", User.toJSON user)]))
      /\ In user
            (users (fst (post_signup (P := Demo.platform) demo_newcomer 4 300
                                     Demo.db))).
Proof.
  split; [reflexivity|]. split; [reflexivity|].
  split; [exact demo_role_allowed|]. split; [exact demo_email_free|].
  split; [reflexivity|].
  exact (X7_signup_then_login
           (P := Demo.platform) demo_newcomer 4 300 400 Demo.db
           "new@x.com" "pw" eq_refl eq_refl demo_role_allowed
           demo_email_free eq_refl).
Defined.

Lemma X8_witness :
  let body := mkLogin (Some "acme@x.com") (Some "s3cret") in
  User.findOneByEmail (l_email body) (users Demo.db) = Some Demo.acme
  /\ Demo.compare (l_password body) (User.password Demo.acme) = Some true
  /\ lacks " "%char "tokenA"
  /\ Demo.verify (Some "tokenA") "nextrade_secret" 400
     = Some (mkToken 1 (Some "wholesaler"))
  /\ authenticated (P := Demo.platform) (Some "Bearer tokenA") 400
                   (mkToken 1 (Some "wholesaler")).
Proof.
  cbn zeta. split; [reflexivity|]. split; [reflexivity|].
  split; [exact demo_lacks_space|]. split; [reflexivity|].
  exact (proj2 (X8_login_token_opens_gate
                  (P := Demo.platform)
                  (mkLogin (Some "acme@x.com") (Some "s3cret")) 300 400
                  Demo.db Demo.acme "tokenA"
                  eq_refl eq_refl eq_refl demo_lacks_space eq_refl)).
Defined.

Lemma demo_acme_wholesaler :
  role (mkToken 1 (Some "wholesaler")) = Some "wholesaler".
Proof. reflexivity. Defined.

Lemma X12_witness :
  authenticated (P := Demo.platform) (Some "Bearer tokenA") 300
                (mkToken 1 (Some "wholesaler"))
  /\ authenticated (P := Demo.platform) (Some "Bearer tokenA") 400
                   (mkToken 1 (Some "wholesaler"))
  /\ role (mkToken 1 (Some "wholesaler")) = Some "wholesaler"
  /\ exists product result,
      get_products_my
        (P := Demo.platform) (Some "Bearer tokenA") 400
        (fst (post_products (P := Demo.platform) (Some "Bearer tokenA")
                            demo_rename 12 300 Demo.db))
      = (fst (post_products (P := Demo.platform) (Some "Bearer tokenA")
                            demo_rename 12 300 Demo.db),
         productList result)
      /\ In product result
      /\ Product._id product = 12.
Proof.
  split; [exact demo_tokenA|]. split; [exact demo_tokenA_later|].
  split; [exact demo_acme_wholesaler|].
  destruct (X12_created_product_is_listed
              (P := Demo.platform) (Some "Bearer tokenA") 300 400
              (mkToken 1 (Some "wholesaler")) demo_rename 12 Demo.db
              demo_tokenA demo_tokenA_later demo_acme_wholesaler)
    as (product & result & H1 & H2 & H3 & _).
  exists product, result. split; [exact H1|]. split; [exact H2|exact H3].
Defined.

Lemma X13_witness :
  authenticated (P := Demo.platform) (Some "Bearer tokenC") 300
                (mkToken 3 (Some "retailer"))
  /\ role (mkToken 3 (Some "retailer")) <> Some "wholesaler"
  /\ get_products_my (P := Demo.platform) (Some "Bearer tokenC") 300 Demo.db
     = (Demo.db, Reply 403 (JObj [("success", JBool false)])).
Proof.
  assert (Hrole : role (mkToken 3 (Some "retailer")) <> Some "wholesaler")
    by discriminate.
  split; [exact demo_tokenC|]. split; [exact Hrole|].
  exact (X13_my_products_for_wholesalers_only
           (P := Demo.platform) (Some "Bearer tokenC") 300
           (mkToken 3 (Some "retailer")) Demo.db demo_tokenC Hrole).
Defined.

Lemma demo_widget_stored : In Demo.widget (products Demo.db).
Proof. left. reflexivity. Defined.

Lemma X14_witness :
  authenticated (P := Demo.platform) (Some "Bearer tokenA") 300
                (mkToken 1 (Some "wholesaler"))
  /\ idsDistinct (products Demo.db)
  /\ In Demo.widget (products Demo.db)
  /\ Product._id Demo.widget = 10
  /\ Product.wholesalerId Demo.widget = Some 1
  /\ exists rest,
      delete_product (P := Demo.platform) (Some "Bearer tokenA") 10 300
                     Demo.db
      = (mkDb (users Demo.db) rest (orders Demo.db),
         Reply 200 (JObj [("success", JBool true)]))
      /\ (forall q, In q rest
                    <-> In q (products Demo.db) /\ Product._id q <> 10)
      /\ S (List.length rest) = List.length (products Demo.db).
Proof.
  split; [exact demo_tokenA|]. split; [exact demo_ids_distinct|].
  split; [exact demo_widget_stored|]. split; [reflexivity|].
  split; [reflexivity|].
  exact (X14_owner_deletes_exactly_one
           (P := Demo.platform) (Some "Bearer tokenA") 300
           (mkToken 1 (Some "wholesaler")) 10 Demo.widget Demo.db
           demo_tokenA demo_ids_distinct demo_widget_stored
           eq_refl eq_refl).
Defined.

Lemma X15_witness :
  authenticated (P := Demo.platform) (Some "Bearer tokenA") 300
                (mkToken 1 (Some "wholesaler"))
  /\ authenticated (P := Demo.platform) (Some "Bearer tokenA") 400
                   (mkToken 1 (Some "wholesaler"))
  /\ idsDistinct (products Demo.db)
  /\ In Demo.widget (products Demo.db)
  /\ Product._id Demo.widget = 10
  /\ Product.wholesalerId Demo.widget = Some 1
  /\ delete_product
       (P := Demo.platform) (Some "Bearer tokenA") 10 400
       (fst (delete_product (P := Demo.platform) (Some "Bearer tokenA") 10
                            300 Demo.db))
     = (fst (delete_product (P := Demo.platform) (Some "Bearer tokenA") 10
                            300 Demo.db),
        failure 403 "Not allowed").
Proof.
  split; [exact demo_tokenA|]. split; [exact demo_tokenA_later|].
  split; [exact demo_ids_distinct|]. split; [exact demo_widget_stored|].
  split; [reflexivity|]. split; [reflexivity|].
  exact (X15_second_delete_forbidden
           (P := Demo.platform) (Some "Bearer tokenA") 300 400
           (mkToken 1 (Some "wholesaler")) 10 Demo.widget Demo.db
           demo_tokenA demo_tokenA_later demo_ids_distinct
           demo_widget_stored eq_refl eq_refl).
Defined.

Lemma cast_put_without_owner_example :
  Product.b_wholesalerId demo_rename = None
  /\ map Product.wholesalerId
         (products (fst (put_product (P := Demo.platform)
                                     (Some "Bearer tokenA") 10 demo_rename
                                     300 Demo.db)))
     = map Product.wholesalerId (products Demo.db).
Proof.
  split; [reflexivity|].
  exact (cast_put_without_owner_keeps_owners
           (P := Demo.platform) (Some "Bearer tokenA") 10 demo_rename 300
           Demo.db eq_refl).
Defined.

Lemma cast_put_by_owner_example :
  authenticated (P := Demo.platform) (Some "Bearer tokenA") 300
                (mkToken 1 (Some "wholesaler"))
  /\ idsDistinct (products Demo.db)
  /\ In Demo.widget (products Demo.db)
  /\ Product._id Demo.widget = 10
  /\ Product.wholesalerId Demo.widget = Some 1
  /\ exists before after p',
      products Demo.db = before ++ Demo.widget :: after
      /\ put_product (P := Demo.platform) (Some "Bearer tokenA") 10
                     demo_rename 300 Demo.db
         = (mkDb (users Demo.db) (before ++ p' :: after) (orders Demo.db),
            Reply 200 (JObj [("success", JBool true);
                             ("product", Product.toJSON p')]))
      /\ Product._id p' = 10.
Proof.
  split; [exact demo_tokenA|]. split; [exact demo_ids_distinct|].
  split; [exact demo_widget_stored|]. split; [reflexivity|].
  split; [reflexivity|].
  destruct (cast_put_by_owner_updates_in_place
              (P := Demo.platform) (Some "Bearer tokenA") 300
              (mkToken 1 (Some "wholesaler")) 10 demo_rename Demo.widget
              Demo.db demo_tokenA demo_ids_distinct demo_widget_stored
              eq_refl eq_refl)
    as (before & after & p' & H1 & H2 & H3 & _).
  exists before, after, p'. split; [exact H1|]. split; [exact H2|exact H3].
Defined.

Lemma X19_witness :
  idsDistinct (products Demo.db)
  /\ ~ In 12 (map Product._id (products Demo.db))
  /\ idsDistinct
       (products (fst (post_products (P := Demo.platform)
                                     (Some "Bearer tokenA") demo_rename 12
                                     300 Demo.db))).
Proof.
  assert (Hfresh : ~ In 12 (map Product._id (products Demo.db)))
    by (cbn; intuition discriminate).
  split; [exact demo_ids_distinct|]. split; [exact Hfresh|].
  exact (proj2 (proj2 (X19_product_ids_stay_distinct
                         (P := Demo.platform) (Some "Bearer tokenA") 10
                         demo_rename 12 300 Demo.db demo_ids_distinct))
               Hfresh).
Defined.

Lemma X22_witness :
  authenticated (P := Demo.platform) (Some "Bearer tokenC") 300
                (mkToken 3 (Some "retailer"))
  /\ exists result,
      get_orders (P := Demo.platform) (Some "Bearer tokenC") 300 Demo.db
      = (Demo.db, Reply 200 (JObj [("success", JBool true);
                                   ("orders",
                                    JArr (map Order.toJSON result))]))
      /\ Permutation result (orders Demo.db)
      /\ ordersNewestFirst result.
Proof.
  split; [exact demo_tokenC|].
  exact (X22_any_authenticated_caller_lists_all_orders
           (P := Demo.platform) (Some "Bearer tokenC") 300
           (mkToken 3 (Some "retailer")) Demo.db demo_tokenC).
Defined.

Lemma demo_no_orders :
  forall o, In o (orders Demo.db) -> (Order.createdAt o < 300)%N.
Proof. intros o []. Defined.

Lemma cast_order_heads_the_listing_example :
  authenticated (P := Demo.platform) (Some "Bearer tokenA") 400
                (mkToken 1 (Some "wholesaler"))
  /\ (forall o, In o (orders Demo.db) -> (Order.createdAt o < 300)%N)
  /\ get_orders
       (P := Demo.platform) (Some "Bearer tokenA") 400
       (fst (post_orders None demo_basket 20 300 Demo.db))
     = (fst (post_orders None demo_basket 20 300 Demo.db),
        Reply 200
          (JObj [("success", JBool true);
                 ("orders",
                  JArr (map Order.toJSON
                            (Order.new demo_basket 20 300
                               :: sortDesc Order.createdAt
                                           (orders Demo.db))))])).
Proof.
  split; [exact demo_tokenA_later|]. split; [exact demo_no_orders|].
  exact (cast_order_heads_the_listing
           (P := Demo.platform) None (Some "Bearer tokenA") demo_basket 20
           300 400 (mkToken 1 (Some "wholesaler")) Demo.db
           demo_tokenA_later demo_no_orders).
Defined.

Lemma X24_witness :
  ((5 # 2) <= (7 # 2))%Q
  /\ (Math_round (5 # 2)%Q <= Math_round (7 # 2)%Q)%Z.
Proof.
  assert (H : ((5 # 2) <= (7 # 2))%Q) by (unfold Qle; cbn; lia).
  split; [exact H|].
  exact (proj2 (proj2 (X24_rounding_of_charge_amounts
                         2%Z (5 # 2)%Q (7 # 2)%Q 1700)) H).
Defined.

Lemma X26_witness :
  noSyntaxChar "wid"
  /\ exists result,
      get_products (Some "^wid") Demo.db = Some (Demo.db, productList result)
      /\ (forall p, In p result
                    <-> In p (products Demo.db)
                        /\ (pathStartsWithCI "wid" (Product.name p)
                            \/ pathStartsWithCI "wid" (Product.category p)))
      /\ newestFirst result.
Proof.
  split; [exact demo_plain_wid|].
  exact (X26_caret_search_lists_prefix_matches "wid" Demo.db demo_plain_wid).
Defined.

Lemma X27_witness :
  noSyntaxChar "wid"
  /\ get_products (Some "WID") Demo.db = get_products (Some "wid") Demo.db.
Proof.
  split; [exact demo_plain_wid|].
  exact (X27_search_ignores_case_of_the_query "wid" Demo.db demo_plain_wid).
Defined.

Lemma X21_witness :
  get_products (Some "wid") Demo.db
  = Some (Demo.db, productList [Demo.widget])
  /\ fst (Demo.db, productList [Demo.widget]) = Demo.db.
Proof.
  assert (H : get_products (Some "wid") Demo.db
              = Some (Demo.db, productList [Demo.widget])) by reflexivity.
  split; [exact H|].
  exact (proj1 (proj2 (proj2 (proj2 (proj2
           (X21_reading_routes_change_nothing
              (P := Demo.platform) None (mkLogin None None)
              (mkChargeBody None) 1 (Some "wid") 300 Demo.db)))))
           (Demo.db, productList [Demo.widget]) H).
Defined.

(** * The routes on requests as they arrive *)

(** ** What casting leaves of a body *)
Section CastFacts.
Context `{M : Mongoose}.

Lemma verdict_accepted {A} fields nulls invalids (a b : A) :
  verdict fields nulls invalids a = Accepted b ->
  a = b /\ existsb (hasMember fields) reserved = false.
Proof.
  unfold verdict.
  destruct (existsb (hasMember fields) reserved); [discriminate|].
  cbn [orb]. destruct (existsb _ nulls); [discriminate|].
  destruct (existsb _ invalids); [discriminate|].
  intros [= ->]. now split.
Qed.

Lemma readPath_unset {A} (cast : json -> Cast A) k fields :
  getField k fields = None -> readPath cast k fields = Unset.
Proof. unfold readPath. now intros ->. Qed.

Lemma readPath_holds {A} (cast : json -> Cast A) k fields v a :
  getField k fields = Some v -> cast v = Casts a ->
  readPath cast k fields <> Null ->
  readPath cast k fields = Holds a.
Proof.
  unfold readPath. intros -> Hc. rewrite Hc. now destruct v.
Qed.

Lemma readPath_string k fields s :
  getField k fields = Some (JStr s) ->
  readPath castString k fields = Holds s.
Proof. unfold readPath. intros ->. now rewrite castString_string. Qed.


Lemma parseUser_accepted body user :
  parseUser body = Accepted user ->
  exists fields,
    body = JObj fields
    /\ User.b_email user = valueOf (readPath castString "email" fields)
    /\ User.b_password user
       = valueOf (readPath castString "password" fields)
    /\ User.b_role user = valueOf (readPath castString "role" fields).
Proof.
  destruct body as [| | | | | | |fields]; try discriminate.
  unfold parseUser. intros H. apply verdict_accepted in H as [<- _].
  exists fields. repeat split.
Qed.

Lemma parsePlainUpdate_accepted fields b :
  parsePlainUpdate fields = Accepted b ->
  b = Product.mkBody
        (valueOf (readPath castString "name" fields))
        (valueOf (readPath castNumber "price" fields))
        (valueOf (readPath castString "category" fields))
        (valueOf (readPath castString "image" fields))
        (valueOf (readPath castObjectId "wholesalerId" fields)).
Proof.
  unfold parsePlainUpdate. intros H.
  apply verdict_accepted in H as [<- _]. reflexivity.
Qed.

Lemma orElse_valueOf {A} (cast : json -> Cast A) k fields old :
  Product.orElse (valueOf (readPath cast k fields)) old
  = updated cast k fields old.
Proof. unfold updated. now destruct (readPath cast k fields). Qed.

Lemma findOneAndApply_plain pid owner b now coll :
  findOneAndApply pid owner (fun p => Some (Product.applyUpdate b now p)) coll
  = Some (Product.findOneAndUpdate pid owner b now coll).
Proof.
  induction coll as [|p rest IH]; [reflexivity|].
  cbn [findOneAndApply Product.findOneAndUpdate].
  destruct (Product.ownedBy pid owner p); [reflexivity|].
  rewrite IH.
  now destruct (Product.findOneAndUpdate pid owner b now rest).
Qed.


End CastFacts.

(** ** Orders *)
Section OrderArrivals.
Context `{P : Platform} `{M : Mongoose}.



End OrderArrivals.

(** ** Products *)
Section ProductArrivals.
Context `{P : Platform} `{M : Mongoose}.

Lemma delete_route_cast authorization idParam pid now db :
  castPathId idParam = Some pid ->
  delete_route authorization idParam now db
  = delete_product authorization pid now db.
Proof. unfold delete_route, delete_product. now intros ->. Qed.

Lemma put_route_plain authorization idParam pid fields b now db :
  castPathId idParam = Some pid ->
  hasOperator fields = false ->
  parsePlainUpdate fields = Accepted b ->
  put_route authorization idParam (JObj fields) now db
  = Some (put_product authorization pid b now db).
Proof.
  intros Hid Hop Hb. unfold put_route, put_product, parseUpdate.
  rewrite Hop, Hb, Hid. f_equal. unfold authMiddleware.
  destruct authorization as [h|]; [|reflexivity].
  destruct (negb (String.prefix "Bearer " h)); [reflexivity|].
  destruct (jwt_verify _ _ _) as [user|]; [|reflexivity].
  rewrite findOneAndApply_plain.
  now destruct (Product.findOneAndUpdate pid (id user) b now (products db)).
Qed.


(** X11: the public listing of a wholesaler's products needs no token and
    never changes the store; for a path id that is a well-formed ObjectId
    it is answered 200 with exactly the stored products whose owner is that
    id, newest first, and for any other path id it is answered 500
    "Failed to fetch products". *)
Theorem X11_products_of_wholesaler_or_500 idParam db :
  fst (products_wholesaler_route idParam db) = db
  /\ (forall wid,
         castPathId idParam = Some wid ->
         exists result,
           products_wholesaler_route idParam db = (db, productList result)
           /\ (forall p, In p result
                         <-> In p (products db)
                             /\ Product.wholesalerId p = Some wid)
           /\ newestFirst result)
  /\ (castPathId idParam = None ->
      products_wholesaler_route idParam db
      = (db, failure 500 "Failed to fetch products")).
Proof.
  unfold products_wholesaler_route. split; [|split].
  - now destruct (castPathId idParam).
  - intros wid ->. exists (productsOf wid (products db)).
    split; [reflexivity|apply productsOf_spec].
  - now intros ->.
Qed.



(** X18: when product ids are distinct, a [PUT] by the owner whose body has
    no operator member and is accepted by the casts is answered 200 with
    the updated product and replaces that product where it stands: each of
    name, price, category, image and wholesalerId is the value sent, as
    cast, or else the value the product had; the id and the creation time
    are kept, [updatedAt] is the clock reading, and every other product,
    the users and the orders are as they were. *)
Theorem X18_owner_plain_put_updates_in_place
        authorization now user idParam fields b p db :
  authenticated authorization now user ->
  idsDistinct (products db) ->
  In p (products db) ->
  castPathId idParam = Some (Product._id p) ->
  Product.wholesalerId p = Some (id user) ->
  hasOperator fields = false ->
  parsePlainUpdate fields = Accepted b ->
  let p' :=
    Product.mk (Product._id p)
               (updated castString "name" fields (Product.name p))
               (updated castNumber "price" fields (Product.price p))
               (updated castString "category" fields (Product.category p))
               (updated castString "image" fields (Product.image p))
               (updated castObjectId "wholesalerId" fields
                        (Product.wholesalerId p))
               (Product.createdAt p) now in
  exists before after,
    products db = before ++ p :: after
    /\ put_route authorization idParam (JObj fields) now db
       = Some (mkDb (users db) (before ++ p' :: after) (orders db),
               Reply 200 (JObj [("success", JBool true);
                                ("product", Product.toJSON p')])).
Proof.
  intros Hauth Hnd Hin Hid Hown Hop Hb. cbn zeta.
  assert (Hp : Product.ownedBy (Product._id p) (id user) p = true)
    by now apply ownedBy_spec.
  destruct (findOneAndUpdate_hit (Product._id p) (id user) b now _ p
              Hnd Hin Hp) as (before & after & Hsplit & Hupd).
  exists before, after. split; [exact Hsplit|].
  rewrite (put_route_plain _ _ _ _ _ _ _ Hid Hop Hb).
  unfold put_product. rewrite (authMiddleware_pass _ _ _ _ _ Hauth), Hupd.
  rewrite (parsePlainUpdate_accepted _ _ Hb).
  unfold Product.applyUpdate.
  cbn [Product.b_name Product.b_price Product.b_category Product.b_image
       Product.b_wholesalerId].
  now rewrite !orElse_valueOf.
Qed.

End ProductArrivals.

(** ** Accounts and orders *)
Section OtherArrivals.
Context `{P : Platform} `{M : Mongoose}.

(** X4: a signup whose body the casts accept (no member [_id], [id],
    [createdAt], [updatedAt] or [__v]), whose role passes the validator and
    whose email no stored user has is answered 201 and appends one user to
    the store: the one sent, with the server's id and clock, holding the
    bcrypt hash of the password in place of the password; products and
    orders are untouched.  A body the casts refuse is answered 400 and the
    store is left as it was. *)
Theorem X4_accepted_signup_stores_hashed_account body user oid now db :
  (parseUser body = Accepted user ->
   roleAllowed (User.b_role user) ->
   emailFree (User.b_email user) (users db) ->
   exists stored,
     signup_route body oid now db
     = Some (mkDb (users db ++ [stored]) (products db) (orders db),
             Reply 201 (JObj [("success", JBool true);
                              ("message", JStr "Account created");
                              ("user", User.toJSON stored)]))
     /\ User._id stored = oid
     /\ User.createdAt stored = now
     /\ User.role stored = User.b_role user
     /\ (forall s, member "email" body = Some (JStr s) ->
                   User.email stored = Some s)
     /\ (forall pw, member "password" body = Some (JStr pw) ->
                    User.password stored
                    = Some (bcrypt_hash pw SALT_ROUNDS))
     /\ (member "password" body = None -> User.password stored = None))
  /\ (parseUser body = Rejected ->
      signup_route body oid now db
      = Some (db, failure 400 (castFailureMessage body))).
Proof.
  split.
  - intros Hparse Hrole Hfree.
    destruct (parseUser_accepted _ _ Hparse)
      as (fields & -> & Hemail & Hpw & _).
    destruct (signup_accepted user oid now db Hrole Hfree)
      as (stored & Hpost & Hid & He & Hr & Hc & Hp).
    exists stored. unfold signup_route. rewrite Hparse, Hpost.
    cbn [member].
    split; [reflexivity|]. split; [exact Hid|]. split; [exact Hc|].
    split; [exact Hr|]. split; [|split].
    + intros s Hs. now rewrite He, Hemail, (readPath_string _ _ _ Hs).
    + intros pw Hs. now rewrite Hp, Hpw, (readPath_string _ _ _ Hs).
    + intros Hs. now rewrite Hp, Hpw, (readPath_unset _ _ _ Hs).
  - intros Hparse. unfold signup_route. now rewrite Hparse.
Qed.

(** X23: an order whose payload the casts accept (so it names no
    [createdAt]), placed when the clock is past the creation time of every
    stored order, heads the order listing from then on, followed by the
    earlier orders in their earlier order. *)
Theorem X23_accepted_order_heads_the_listing
        anyone authorization body order oid now now' user db :
  authenticated authorization now' user ->
  parseOrder body = Accepted order ->
  (forall o, In o (orders db) -> (Order.createdAt o < now)%N) ->
  exists db',
    option_map fst (orders_route anyone body oid now db) = Some db'
    /\ orders db' = orders db ++ [Order.new order oid now]
    /\ get_orders authorization now' db'
       = (db', Reply 200
                 (JObj [("success", JBool true);
                        ("orders",
                         JArr (map Order.toJSON
                                   (Order.new order oid now
                                      :: sortDesc Order.createdAt
                                                  (orders db))))])).
Proof.
  intros Hauth Hparse Hnew. unfold orders_route. rewrite Hparse.
  eexists. split; [reflexivity|]. split; [reflexivity|].
  exact (cast_order_heads_the_listing
           anyone authorization order oid now now' user db Hauth Hnew).
Qed.

End OtherArrivals.

(** * The routes on concrete requests *)








Lemma X4_witness :
  let body :=
    JObj [("name", JStr "Nina"); ("email", JStr "new@x.com");
          ("password", JStr "pw"); ("role", JStr "retailer")] in
  parseUser (M := DemoCasts.mongoose) body = Accepted demo_newcomer
  /\ roleAllowed (User.b_role demo_newcomer)
  /\ emailFree (User.b_email demo_newcomer) (users Demo.db)
  /\ exists stored,
      option_map fst
                 (signup_route (P := Demo.platform) (M := DemoCasts.mongoose)
                               body 4 300 Demo.db)
      = Some (mkDb (users Demo.db ++ [stored]) (products Demo.db)
                   (orders Demo.db))
      /\ User._id stored = 4
      /\ User.password stored = Some (Demo.hash "pw" SALT_ROUNDS).
Proof.
  cbn zeta. split; [reflexivity|]. split; [exact demo_role_allowed|].
  split; [exact demo_email_free|].
  destruct (proj1 (X4_accepted_signup_stores_hashed_account
                     (P := Demo.platform) (M := DemoCasts.mongoose)
                     (JObj [("name", JStr "Nina");
                            ("email", JStr "new@x.com");
                            ("password", JStr "pw");
                            ("role", JStr "retailer")])
                     demo_newcomer 4 300 Demo.db)
                  eq_refl demo_role_allowed demo_email_free)
    as (stored & Hroute & Hid & _ & _ & _ & Hpw & _).
  exists stored. split; [now rewrite Hroute|].
  split; [exact Hid|exact (Hpw "pw" eq_refl)].
Defined.

Lemma X11_witness :
  castPathId (Mongoose := DemoCasts.mongoose) "not-an-id" = None
  /\ products_wholesaler_route (M := DemoCasts.mongoose) "not-an-id" Demo.db
     = (Demo.db, failure 500 "Failed to fetch products").
Proof.
  split; [reflexivity|].
  exact (proj2 (proj2 (X11_products_of_wholesaler_or_500
                         (M := DemoCasts.mongoose) "not-an-id" Demo.db))
               eq_refl).
Defined.



Lemma X18_witness :
  let fields := [("name", JStr "Widget Pro"); ("price", JStr "12")] in
  authenticated (P := Demo.platform) (Some "Bearer tokenA") 300
                (mkToken 1 (Some "wholesaler"))
  /\ idsDistinct (products Demo.db)
  /\ In Demo.widget (products Demo.db)
  /\ castPathId (Mongoose := DemoCasts.mongoose) DemoCasts.widgetId
     = Some (Product._id Demo.widget)
  /\ Product.wholesalerId Demo.widget = Some 1
  /\ hasOperator fields = false
  /\ parsePlainUpdate (M := DemoCasts.mongoose) fields
     = Accepted (Product.mkBody (Some "Widget Pro")
                                (Some (inject_Z 12)) None None None)
  /\ exists before after,
      products Demo.db = before ++ Demo.widget :: after
      /\ put_route (P := Demo.platform) (M := DemoCasts.mongoose)
                   (Some "Bearer tokenA") DemoCasts.widgetId (JObj fields)
                   300 Demo.db
         = Some (mkDb (users Demo.db)
                      (before
                         ++ Product.mk 10 (Some "Widget Pro")
                                       (Some (inject_Z 12)) (Some "Tools")
                                       None (Some 1) 200 300
                         :: after)
                      (orders Demo.db),
                 Reply 200
                   (JObj [("success", JBool true);
                          ("product",
                           Product.toJSON
                             (Product.mk 10 (Some "Widget Pro")
                                         (Some (inject_Z 12)) (Some "Tools")
                                         None (Some 1) 200 300))])).
Proof.
  cbn zeta. split; [exact demo_tokenA|]. split; [exact demo_ids_distinct|].
  split; [exact demo_widget_stored|]. split; [reflexivity|].
  split; [reflexivity|]. split; [reflexivity|]. split; [reflexivity|].
  exact (X18_owner_plain_put_updates_in_place
           (P := Demo.platform) (M := DemoCasts.mongoose)
           (Some "Bearer tokenA") 300 (mkToken 1 (Some "wholesaler"))
           DemoCasts.widgetId
           [("name", JStr "Widget Pro"); ("price", JStr "12")]
           (Product.mkBody (Some "Widget Pro") (Some (inject_Z 12))
                           None None None)
           Demo.widget Demo.db demo_tokenA demo_ids_distinct
           demo_widget_stored eq_refl eq_refl eq_refl eq_refl).
Defined.

Lemma demo_earlier_order :
  forall o, In o (orders DemoCasts.dbWithOrder) ->
            (Order.createdAt o < 300)%N.
Proof. intros o [<-|[]]. reflexivity. Defined.

Lemma X23_witness :
  let body :=
    JObj [("productName", JStr "Widget"); ("price", JNum (inject_Z 10));
          ("quantity", JNum (inject_Z 2))] in
  authenticated (P := Demo.platform) (Some "Bearer tokenA") 400
                (mkToken 1 (Some "wholesaler"))
  /\ parseOrder (M := DemoCasts.mongoose) body = Accepted demo_basket
  /\ (forall o, In o (orders DemoCasts.dbWithOrder) ->
                (Order.createdAt o < 300)%N)
  /\ exists db',
      option_map fst
                 (orders_route (M := DemoCasts.mongoose) None body 20 300
                               DemoCasts.dbWithOrder)
      = Some db'
      /\ orders db' = [DemoCasts.earlier; Order.new demo_basket 20 300]
      /\ get_orders (P := Demo.platform) (Some "Bearer tokenA") 400 db'
         = (db', Reply 200
                   (JObj [("success", JBool true);
                          ("orders",
                           JArr (map Order.toJSON
                                     [Order.new demo_basket 20 300;
                                      DemoCasts.earlier]))])).
Proof.
  cbn zeta. split; [exact demo_tokenA_later|]. split; [reflexivity|].
  split; [exact demo_earlier_order|].
  exact (X23_accepted_order_heads_the_listing
           (P := Demo.platform) (M := DemoCasts.mongoose)
           None (Some "Bearer tokenA")
           (JObj [("productName", JStr "Widget");
                  ("price", JNum (inject_Z 10));
                  ("quantity", JNum (inject_Z 2))])
           demo_basket 20 300 400 (mkToken 1 (Some "wholesaler"))
           DemoCasts.dbWithOrder demo_tokenA_later eq_refl
           demo_earlier_order).
Defined.
